(** * UploadTimer: the sample store and the completion-time estimator of [timer.py]

    A shallow embedding of class [TimeIt] (src/src/timer.py) and of the parts of
    Python's [datetime] and of NumPy that its methods call, followed by the
    properties of the specification that were checked against it.

    Conventions of the model.
    - A Python [int] is a [Z].  A [numpy.float64] is an exact rational or NaN:
      rounding and overflow of binary floating point are outside the model.
    - A [datetime] object is the record of fields CPython stores.
    - A text file is the list of its fields, one per line, which is the layout
      [numpy.savetxt] produces from a one-dimensional sequence.
    - Methods are state transformers over the object and the outside world
      (file system, clock, console), and either return or raise. *)

From Stdlib Require Import ZArith QArith Qabs Qround Lia String Ascii List Bool.
From Stdlib Require Import DecimalString.
From stdpp Require Import gmap strings.
Import ListNotations.

Local Open Scope string_scope.
Local Open Scope Z_scope.

(** ** Python values *)

Module Py.

(** [numpy.float64] and Python [float], idealised.  The operations keep the
    fractions in lowest terms. *)
Inductive float : Type :=
  | Fl (q : Q)
  | NaN.

(** The values a caller or the console can hand to [add_to_dataset]. *)
Inductive value : Type :=
  | VNone
  | VBool (b : bool)
  | VInt (z : Z)
  | VFloat (x : float)
  | VStr (s : string).

(** The numbers held in [upload_data]: Python ints from [nfiles - current_file],
    floats from [numpy.loadtxt]. *)
Inductive num : Type :=
  | NInt (z : Z)
  | NFloat (x : float).

Inductive exn : Type :=
  | TypeError
  | ValueError
  | IndexError
  | OverflowError
  | EOFError
  | IOError (path : string)
  | SystemExit (cause : exn).

(** Truth value testing: [None], [False], zero of a numeric type and the empty
    string are false; NaN is true. *)
Definition truthy (v : value) : bool :=
  match v with
  | VNone => false
  | VBool b => b
  | VInt z => negb (z =? 0)
  | VFloat (Fl q) => negb (Qeq_bool q 0)
  | VFloat NaN => true
  | VStr s => negb (String.eqb s "")
  end.

Definition fsub (x y : float) : float :=
  match x, y with
  | Fl a, Fl b => Fl (Qred (a - b))
  | _, _ => NaN
  end.

Definition fadd (x y : float) : float :=
  match x, y with
  | Fl a, Fl b => Fl (Qred (a + b))
  | _, _ => NaN
  end.

Definition fmul (x y : float) : float :=
  match x, y with
  | Fl a, Fl b => Fl (Qred (a * b))
  | _, _ => NaN
  end.

Definition of_int (z : Z) : float := Fl (inject_Z z).

(** [n - v] for an int [n]: [int.__sub__], then the reflected operand. *)
Definition int_sub (n : Z) (v : value) : exn + num :=
  match v with
  | VInt z => inr (NInt (n - z))
  | VBool b => inr (NInt (n - (if b then 1 else 0)))
  | VFloat x => inr (NFloat (fsub (of_int n) x))
  | VNone | VStr _ => inl TypeError
  end.

(** Conversion to float64, as [numpy.asarray] does on a list of numbers. *)
Definition to_float (n : num) : float :=
  match n with
  | NInt z => of_int z
  | NFloat x => x
  end.

Definition feq (x y : float) : Prop :=
  match x, y with
  | Fl a, Fl b => a == b
  | NaN, NaN => True
  | _, _ => False
  end.

End Py.
Import Py.

(** ** [datetime] *)

Module DateTime.

Inductive tzinfo : Type := Naive | UTC.

Record datetime : Type := mk_datetime {
  year : Z; month : Z; day : Z;
  hour : Z; minute : Z; second : Z; microsecond : Z;
  tz : tzinfo
}.

Definition is_leap (y : Z) : bool :=
  (y mod 4 =? 0) && (negb (y mod 100 =? 0) || (y mod 400 =? 0)).

(** [_DAYS_IN_MONTH] and [_DAYS_BEFORE_MONTH] of datetime.py. *)
Definition DAYS_IN_MONTH (m : Z) : Z :=
  match m with
  | 1 => 31 | 2 => 28 | 3 => 31 | 4 => 30 | 5 => 31 | 6 => 30
  | 7 => 31 | 8 => 31 | 9 => 30 | 10 => 31 | 11 => 30 | 12 => 31
  | _ => -1
  end.

Definition DAYS_BEFORE_MONTH (m : Z) : Z :=
  match m with
  | 1 => 0 | 2 => 31 | 3 => 59 | 4 => 90 | 5 => 120 | 6 => 151
  | 7 => 181 | 8 => 212 | 9 => 243 | 10 => 273 | 11 => 304 | 12 => 334
  | _ => -1
  end.

Definition days_in_month (y m : Z) : Z :=
  if (m =? 2) && is_leap y then 29 else DAYS_IN_MONTH m.

Definition days_before_year (y : Z) : Z :=
  let y' := y - 1 in y' * 365 + y' / 4 - y' / 100 + y' / 400.

Definition days_before_month (y m : Z) : Z :=
  DAYS_BEFORE_MONTH m + (if (2 <? m) && is_leap y then 1 else 0).

Definition ymd2ord (y m d : Z) : Z :=
  days_before_year y + days_before_month y m + d.

Definition DI400Y : Z := 146097.
Definition DI100Y : Z := 36524.
Definition DI4Y : Z := 1461.

Definition ord2ymd (n0 : Z) : Z * Z * Z :=
  let n := n0 - 1 in
  let n400 := n / DI400Y in let n := n mod DI400Y in
  let y := n400 * 400 + 1 in
  let n100 := n / DI100Y in let n := n mod DI100Y in
  let n4 := n / DI4Y in let n := n mod DI4Y in
  let n1 := n / 365 in let n := n mod 365 in
  let y := y + n100 * 100 + n4 * 4 + n1 in
  if (n1 =? 4) || (n100 =? 4) then (y - 1, 12, 31)
  else
    let leapyear := (n1 =? 3) && (negb (n4 =? 24) || (n100 =? 3)) in
    let m := Z.shiftr (n + 50) 5 in
    let preceding := DAYS_BEFORE_MONTH m + (if (2 <? m) && leapyear then 1 else 0) in
    if n <? preceding then
      let m' := m - 1 in
      let preceding' :=
        preceding - (DAYS_IN_MONTH m' + (if (m' =? 2) && leapyear then 1 else 0)) in
      (y, m', n - preceding' + 1)
    else (y, m, n - preceding + 1).

(** The range checks of the [datetime] constructor. *)
Definition valid_fields (y m d hh mm ss us : Z) : bool :=
  (1 <=? y) && (y <=? 9999) && (1 <=? m) && (m <=? 12) &&
  (1 <=? d) && (d <=? days_in_month y m) &&
  (0 <=? hh) && (hh <=? 23) && (0 <=? mm) && (mm <=? 59) &&
  (0 <=? ss) && (ss <=? 59) && (0 <=? us) && (us <=? 999999).

Definition valid (x : datetime) : bool :=
  valid_fields (year x) (month x) (day x) (hour x) (minute x) (second x)
               (microsecond x).

(** [datetime(y, m, d, hh, mm, ss, us, tzinfo)]: [ValueError] out of range. *)
Definition make (y m d hh mm ss us : Z) (t : tzinfo) : option datetime :=
  if valid_fields y m d hh mm ss us
  then Some (mk_datetime y m d hh mm ss us t)
  else None.

(** *** Text: [str], [strptime], [strftime] *)

Definition digit_char (d : Z) : ascii := ascii_of_nat (Z.to_nat (48 + d)).

(** [w] decimal digits of [n], most significant first: ["%0wd" % n] for
    [0 <= n < 10^w], which the constructor's range checks ensure. *)
Fixpoint fixed_digits (w : nat) (n : Z) : list ascii :=
  match w with
  | O => []
  | S w' => fixed_digits w' (n / 10) ++ [digit_char (n mod 10)]
  end.

Definition chr (s : string) : list ascii := list_ascii_of_string s.

(** [datetime.__str__], that is [isoformat(sep=' ')]: the fraction is printed
    only when [microsecond] is not zero. *)
Definition str_chars (x : datetime) : list ascii :=
  fixed_digits 4 (year x) ++ chr "-" ++ fixed_digits 2 (month x) ++ chr "-" ++
  fixed_digits 2 (day x) ++ chr " " ++ fixed_digits 2 (hour x) ++ chr ":" ++
  fixed_digits 2 (minute x) ++ chr ":" ++ fixed_digits 2 (second x) ++
  (if microsecond x =? 0 then [] else chr "." ++ fixed_digits 6 (microsecond x)) ++
  (match tz x with Naive => [] | UTC => chr "+00:00" end).

Definition str (x : datetime) : string := string_of_list_ascii (str_chars x).

(** [x.strftime('%H:%M')] *)
Definition strftime_HM (x : datetime) : string :=
  string_of_list_ascii (fixed_digits 2 (hour x) ++ chr ":" ++ fixed_digits 2 (minute x)).

Definition code (c : ascii) : Z := Z.of_nat (nat_of_ascii c).
Definition is_digit (c : ascii) : bool := (48 <=? code c) && (code c <=? 57).
Definition is_space (c : ascii) : bool :=
  (code c =? 32) || ((9 <=? code c) && (code c <=? 13)).
Definition digit_val (c : ascii) : Z := code c - 48.

Fixpoint span_digits (s : list ascii) : list ascii * list ascii :=
  match s with
  | c :: r =>
      if is_digit c then let (d, r') := span_digits r in (c :: d, r') else ([], s)
  | [] => ([], [])
  end.

Definition digits_val (ds : list ascii) : Z :=
  fold_left (fun acc c => acc * 10 + digit_val c) ds 0.

(** One numeric directive of the format followed by a literal that is no digit
    (or by the end of the text): the regular expression of the directive has to
    match the whole run of digits found there.  [one] and [two] tell which
    one-digit and two-digit numerals the expression accepts. *)
Definition directive (one two : Z -> bool) (s : list ascii) : option (Z * list ascii) :=
  let (ds, r) := span_digits s in
  let v := digits_val ds in
  match length ds with
  | 1%nat => if one v then Some (v, r) else None
  | 2%nat => if two v then Some (v, r) else None
  | _ => None
  end.

Definition between (lo hi v : Z) : bool := (lo <=? v) && (v <=? hi).

(** [%Y]: exactly four digits. *)
Definition dir_Y (s : list ascii) : option (Z * list ascii) :=
  let (ds, r) := span_digits s in
  if (length ds =? 4)%nat then Some (digits_val ds, r) else None.
(** [%m]: [1[0-2]|0[1-9]|[1-9]] *)
Definition dir_m := directive (between 1 9) (between 1 12).
(** [%d]: [3[0-1]|[1-2]\d|0[1-9]|[1-9]| [1-9]] *)
Definition dir_d (s : list ascii) : option (Z * list ascii) :=
  match s with
  | c :: r =>
      if code c =? 32 then
        match r with
        | c' :: r' => if between 1 9 (digit_val c') then Some (digit_val c', r') else None
        | [] => None
        end
      else directive (between 1 9) (between 1 31) s
  | [] => None
  end.
(** [%H]: [2[0-3]|[0-1]\d|\d] *)
Definition dir_H := directive (between 0 9) (between 0 23).
(** [%M]: [[0-5]\d|\d] *)
Definition dir_M := directive (between 0 9) (between 0 59).
(** [%S]: [6[0-1]|[0-5]\d|\d] *)
Definition dir_S := directive (between 0 9) (between 0 61).
(** [%f]: [[0-9]{1,6}], padded with zeros on the right to six digits. *)
Definition dir_f (s : list ascii) : option (Z * list ascii) :=
  let (ds, r) := span_digits s in
  let k := length ds in
  if ((1 <=? k) && (k <=? 6))%nat
  then Some (digits_val ds * 10 ^ Z.of_nat (6 - k), r) else None.

Definition lit (c : Z) (s : list ascii) : option (list ascii) :=
  match s with
  | c' :: r => if code c' =? c then Some r else None
  | [] => None
  end.

Fixpoint skip_spaces (s : list ascii) : list ascii :=
  match s with
  | c :: r => if is_space c then skip_spaces r else s
  | [] => []
  end.

(** [\s+], which replaces the blank of the format. *)
Definition spaces1 (s : list ascii) : option (list ascii) :=
  match s with
  | c :: r => if is_space c then Some (skip_spaces r) else None
  | [] => None
  end.

(** [datetime.strptime(s, "%Y-%m-%d %H:%M:%S.%f")]; [None] is [ValueError]
    (no match, unconverted data, or fields the constructor refuses). *)
Definition strptime (s : string) : option datetime :=
  '(y, r) ← dir_Y (chr s);
  r ← lit 45 r;
  '(m, r) ← dir_m r;
  r ← lit 45 r;
  '(d, r) ← dir_d r;
  r ← spaces1 r;
  '(hh, r) ← dir_H r;
  r ← lit 58 r;
  '(mm, r) ← dir_M r;
  r ← lit 58 r;
  '(ss, r) ← dir_S r;
  r ← lit 46 r;
  '(us, r) ← dir_f r;
  match r with
  | [] => make y m d hh mm ss us Naive
  | _ :: _ => None
  end.

End DateTime.
Import DateTime.

(** ** The outside world and the method monad *)

Module World.

(** One field of a text file.  A field that reads as a float literal is kept as
    the number it denotes: the default format ["%.18e"] of [numpy.savetxt]
    prints 19 significant digits, which identify a float64, so writing a number
    and parsing it back is the identity.  Any other field is its text. *)
Inductive field : Type :=
  | Num (x : float)
  | Text (s : string).

Inductive event : Type :=
  | Saved (path : string)
  | SaveFailed (path : string)
  | Printed (line : string)
  | Prompted (prompt : string).

Record World : Type := mk_world {
  fs : gmap string (list field);   (* files present, by path *)
  unwritable : gset string;        (* paths that cannot be opened for writing *)
  clock : nat -> datetime;         (* successive readings of the local clock *)
  ticks : nat;                     (* readings taken so far *)
  stdin : list value;              (* answers the console will give to [input] *)
  trace : list event               (* what happened, oldest first *)
}.

Definition log (e : event) (w : World) : World :=
  mk_world (fs w) (unwritable w) (clock w) (ticks w) (stdin w) (trace w ++ [e]).

Inductive res (S A : Type) : Type :=
  | Ret (a : A) (s : S)
  | Raise (e : exn) (s : S).
Arguments Ret {S A} a s.
Arguments Raise {S A} e s.

Definition M (S A : Type) : Type := S -> res S A.

Definition ret {S A} (a : A) : M S A := fun s => Ret a s.
Definition raise {S A} (e : exn) : M S A := fun s => Raise e s.
Definition bind {S A B} (m : M S A) (k : A -> M S B) : M S B :=
  fun s => match m s with
           | Ret a s' => k a s'
           | Raise e s' => Raise e s'
           end.

(** [try: m  except IOError as err: h err] *)
Definition try_except_IOError {S A} (m : M S A) (h : exn -> M S A) : M S A :=
  fun s => match m s with
           | Raise (IOError p) s' => h (IOError p) s'
           | r => r
           end.

Definition state_of {S A} (r : res S A) : S :=
  match r with Ret _ s => s | Raise _ s => s end.

(** What a call produced, without the state it left. *)
Definition outcome {S A} (r : res S A) : exn + A :=
  match r with
  | Ret a _ => inr a
  | Raise e _ => inl e
  end.

(** [os.path.exists] *)
Definition exists_ (path : string) : M World bool :=
  fun w => Ret (bool_decide (is_Some (fs w !! path))) w.

(** [datetime.now()]: the naive local time. *)
Definition now : M World datetime :=
  fun w => Ret (clock w (ticks w))
               (mk_world (fs w) (unwritable w) (clock w) (S (ticks w)) (stdin w) (trace w)).

(** [input(prompt)]: what the console hands back is a value, an evaluated
    expression under Python 2 and a string under Python 3. *)
Definition input (prompt : string) : M World value :=
  fun w =>
    let w' := log (Prompted prompt) w in
    match stdin w' with
    | v :: rest =>
        Ret v (mk_world (fs w') (unwritable w') (clock w') (ticks w') rest (trace w'))
    | [] => Raise EOFError w'
    end.

Definition print (line : string) : M World unit :=
  fun w => Ret tt (log (Printed line) w).

End World.
Import World.

(** The monad is used with stdpp's notation: [x ← m; k] and [m;; k]. *)
#[global] Instance M_ret {S} : MRet (M S) := fun A => @ret S A.
#[global] Instance M_bind {S} : MBind (M S) := fun A B k m => @bind S A B m k.

(** ** The parts of NumPy the store uses *)

Module Np.

(** What [loadtxt] returns with [ndmin=0]: the table is squeezed, so a file of
    one row and one column gives a zero-dimensional array. *)
Inductive ndarray (A : Type) : Type :=
  | Arr0 (x : A)
  | Arr1 (l : list A).
Arguments Arr0 {A} x.
Arguments Arr1 {A} l.

Definition squeeze {A} (l : list A) : ndarray A :=
  match l with
  | [x] => Arr0 x
  | _ => Arr1 l
  end.

(** Iterating an array, as [list(a)] and [for x in a] do: [TypeError] on a
    zero-dimensional one. *)
Definition iter {S A} (a : ndarray A) : M S (list A) :=
  match a with
  | Arr0 _ => raise TypeError
  | Arr1 l => ret l
  end.

Definition float_of_field (f : field) : option float :=
  match f with
  | Num x => Some x
  | Text _ => None
  end.

(** [np.loadtxt(path, delimiter=',')] *)
Definition loadtxt (path : string) : M World (ndarray float) :=
  fun w =>
    match fs w !! path with
    | None => Raise (IOError path) w
    | Some rows =>
        match mapM float_of_field rows with
        | Some xs => Ret (squeeze xs) w
        | None => Raise ValueError w
        end
    end.

(** [np.loadtxt(path, delimiter=',', dtype=str)]: the fields as they are. *)
Definition loadtxt_str (path : string) : M World (ndarray field) :=
  fun w =>
    match fs w !! path with
    | None => Raise (IOError path) w
    | Some rows => Ret (squeeze rows) w
    end.

(** [np.savetxt(path, X, ...)] for a one-dimensional [X] already formatted:
    the file is replaced as a whole, or [IOError] and nothing is written. *)
Definition savetxt (path : string) (rows : list field) : M World unit :=
  fun w =>
    if bool_decide (path ∈ unwritable w)
    then Raise (IOError path) (log (SaveFailed path) w)
    else Ret tt (log (Saved path)
                   (mk_world (<[path := rows]> (fs w)) (unwritable w) (clock w)
                             (ticks w) (stdin w) (trace w))).

End Np.

(** ** Class [TimeIt]: the sample store *)

Module Timer.

Record TimeIt : Type := mk_TimeIt {
  upload_data : list num;
  time_data : list datetime;
  nfiles : Z
}.

(** A method runs on the object and the world. *)
Record St : Type := mk_St { self : TimeIt; world : World }.

Definition io {A} (m : M World A) : M St A :=
  fun s => match m (world s) with
           | Ret a w => Ret a (mk_St (self s) w)
           | Raise e w => Raise e (mk_St (self s) w)
           end.

Definition get_self : M St TimeIt := fun s => Ret (self s) s.
Definition set_self (o : TimeIt) : M St unit := fun s => Ret tt (mk_St o (world s)).

Definition uploads_txt : string := "data/uploads.txt".
Definition timestamps_txt : string := "data/timestamps.txt".

Definition strptime_field {S} (f : field) : M S datetime :=
  match f with
  | Text s => match strptime s with
              | Some x => ret x
              | None => raise ValueError
              end
  | Num _ => raise ValueError
  end.

(** A list comprehension whose element expression can raise. *)
Fixpoint comprehension {S A B} (f : A -> M S B) (l : list A) : M S (list B) :=
  match l with
  | [] => ret []
  | a :: l' => b ← f a; bs ← comprehension f l'; ret (b :: bs)
  end.

Definition read_upload_data (init : Z) (file_path : string) : M World (list num) :=
  e ← exists_ file_path;
  if e && (init =? 0)
  then a ← Np.loadtxt file_path; xs ← Np.iter a; ret (map NFloat xs)
  else ret [].

Definition read_time_data (init : Z) (file_path : string) : M World (list datetime) :=
  e ← exists_ file_path;
  if e && (init =? 0)
  then timestamps ← Np.loadtxt_str file_path;
       xs ← Np.iter timestamps;
       comprehension strptime_field xs
  else ret [].

(** [TimeIt(nfiles)] *)
Definition init_ (nfiles : Z) : M World TimeIt :=
  ud ← read_upload_data 1 uploads_txt;
  td ← read_time_data 1 timestamps_txt;
  ret (mk_TimeIt ud td nfiles).

Definition io_error_handler {A} (err : exn) : M St A :=
  io (print ("IO error: " ++ match err with IOError p => p | _ => "" end));;
  raise (SystemExit err).

Definition write_upload_data (file_path : string) : M St unit :=
  try_except_IOError
    (o ← get_self;
     io (Np.savetxt file_path (map (fun n => Num (to_float n)) (upload_data o))))
    io_error_handler.

Definition write_time_data (file_path : string) : M St unit :=
  try_except_IOError
    (o ← get_self;
     io (Np.savetxt file_path (map (fun x => Text (str x)) (time_data o))))
    io_error_handler.

Definition prompt : string := "Current file # being uploaded: ".

Definition add_to_dataset (file_number : value) : M St bool :=
  current_file ← (if truthy file_number then ret file_number else io (input prompt));
  t ← io now;
  o ← get_self;
  set_self (mk_TimeIt (upload_data o) (time_data o ++ [t]) (nfiles o));;
  o ← get_self;
  remaining ← match int_sub (nfiles o) current_file with
              | inr r => ret r
              | inl e => raise e
              end;
  set_self (mk_TimeIt (upload_data o ++ [remaining]) (time_data o) (nfiles o));;
  write_upload_data uploads_txt;;
  write_time_data timestamps_txt;;
  ret true.

End Timer.
Import Timer.

(** ** Time coordinates *)

Module Coord.

Definition seconds_of_day (x : datetime) : Z :=
  second x + minute x * 60 + hour x * 3600.

Definition toordinal (x : datetime) : Z := ymd2ord (year x) (month x) (day x).

(** [x - y], the [timedelta] as its total number of microseconds; [TypeError]
    when one datetime is aware and the other naive. *)
Definition sub (x y : datetime) : option Z :=
  let base := ((toordinal x - toordinal y) * 86400
               + (seconds_of_day x - seconds_of_day y)) * 10 ^ 6
              + (microsecond x - microsecond y) in
  match tz x, tz y with
  | Naive, Naive | UTC, UTC => Some base
  | _, _ => None
  end.

(** [timedelta.total_seconds()] *)
Definition total_seconds (td : Z) : float := Fl (Qred (td # 1000000)).

(** [datetime(1970,1,1)] *)
Definition epoch : datetime := mk_datetime 1970 1 1 0 0 0 0 Naive.

Definition round_half_even (q : Q) : Z :=
  let f := Qfloor q in
  match ((q - inject_Z f) ?= (1 # 2))%Q with
  | Lt => f
  | Gt => f + 1
  | Eq => if Z.even f then f else f + 1
  end.

(** [datetime.fromtimestamp(t, pytz.utc)] for a float [t]: rounded to the
    microsecond, half to even; [None] is the error raised for NaN and for a
    year outside 1..9999. *)
Definition fromtimestamp_utc (t : float) : option datetime :=
  match t with
  | NaN => None
  | Fl q =>
      let us_total := round_half_even (q * 1000000) in
      let secs := us_total / 10 ^ 6 in
      let us := us_total mod 10 ^ 6 in
      let days := secs / 86400 in
      let sod := secs mod 86400 in
      let '(y, m, d) := ord2ymd (days + toordinal epoch) in
      make y m d (sod / 3600) (sod mod 3600 / 60) (sod mod 60) us UTC
  end.

End Coord.
Import Coord.

(** ** The parts of NumPy the estimator uses *)

Module NpMath.

(** An element of the array [np.roots] returns: the array is of floats when
    every eigenvalue is real and of complex numbers otherwise. *)
Inductive scalar : Type :=
  | Real (x : float)
  | Complex (re im : float).

Inductive root_array : Type :=
  | RealRoots (l : list float)
  | ComplexRoots (l : list (float * float)).

(** [a[0]] *)
Definition first (a : root_array) : option scalar :=
  match a with
  | RealRoots (x :: _) => Some (Real x)
  | ComplexRoots ((re, im) :: _) => Some (Complex re im)
  | _ => None
  end.

(** Division by zero, an infinity or NaN for NumPy, is NaN here: the model has
    no infinities. *)
Definition fdiv (x y : float) : float :=
  match x, y with
  | Fl a, Fl b => if Qeq_bool b 0 then NaN else Fl (Qred (a / b))
  | _, _ => NaN
  end.

Definition fabs (x : float) : float :=
  match x with
  | Fl a => Fl (Qabs a)
  | NaN => NaN
  end.

(** [np.linspace(start, stop, num)] with the end point included:
    [arange(num) * step + start], the last element set to [stop]. *)
Definition linspace (start stop : float) (num : nat) : list float :=
  match num with
  | O => []
  | 1%nat => [start]
  | S div =>
      let step := fdiv (fsub stop start) (of_int (Z.of_nat div)) in
      map (fun i => fadd (fmul (of_int (Z.of_nat i)) step) start) (seq 0 div) ++ [stop]
  end.

(** [np.poly1d(z)(x)]: Horner's scheme, highest degree first. *)
Definition polyval (z : list float) (x : float) : float :=
  fold_left (fun y c => fadd (fmul y x) c) z (Fl 0).

Definition Qlt_bool (a b : Q) : bool := negb (Qle_bool b a).

(** The first index of the least element of [l] below [best], else [best_i];
    NaN never wins. *)
Fixpoint argmin_from (best_i : nat) (best : Q) (i : nat) (l : list float) : nat :=
  match l with
  | [] => best_i
  | NaN :: r => argmin_from best_i best (S i) r
  | Fl q :: r =>
      if Qlt_bool q best then argmin_from i q (S i) r
      else argmin_from best_i best (S i) r
  end.

Fixpoint nanargmin_at (i : nat) (l : list float) : option nat :=
  match l with
  | [] => None
  | NaN :: r => nanargmin_at (S i) r
  | Fl q :: r => Some (argmin_from i q (S i) r)
  end.

(** [np.nanargmin(l)]: [None] is the [ValueError] of an all-NaN (or empty)
    argument. *)
Definition nanargmin (l : list float) : option nat := nanargmin_at 0 l.

End NpMath.
Import NpMath.

(** ** Class [TimeIt]: the estimator *)

Module Estimator.

(** The local variables of [plot_it] once the label is computed. *)
Record locals : Type := mk_locals {
  time_data_dec : list float;
  z : list float;
  roots_ : root_array;
  endtime_dec : float;
  endtime : datetime;
  xp : list float;
  newdates : list datetime;
  newfiles : list float;
  theargmin : nat;
  completion_time : string
}.

Definition of_option {S A} (e : exn) (o : option A) : M S A :=
  match o with
  | Some a => ret a
  | None => raise e
  end.

Definition time_data_to_dec {S} (time_data : list datetime) : M S (list float) :=
  comprehension
    (fun x => td ← of_option TypeError (sub x epoch); ret (total_seconds td))
    time_data.

(** [fig.savefig(save_name, format='pdf', ...)]: of the figure the model keeps
    the legend label. *)
Definition savefig (save_name label : string) : M World unit :=
  Np.savetxt save_name [Text label].

Definition str_int (n : Z) : string := NilZero.string_of_int (Z.to_int n).

Section Numerics.

(** [np.polyfit(x, y, deg)], coefficients highest degree first, and
    [np.roots(z)], in the order the eigenvalue routine gives them. *)
Variable polyfit : list float -> list float -> Z -> exn + list float.
Variable roots : list float -> root_array.

(** Lines 149-163: the coordinates, the scatter of the samples, the fit, its
    roots and the end time.  [ax.plot(x, y, 'o')] refuses two sequences of
    different lengths with [ValueError]. *)
Definition fit_end (poly : Z)
  : M St (list float * list float * root_array * float * datetime) :=
  o ← get_self;
  tdd ← time_data_to_dec (time_data o);
  (if (length (time_data o) =? length (upload_data o))%nat
   then ret tt else raise ValueError);;
  z ← match polyfit tdd (map to_float (upload_data o)) poly with
      | inr z => ret z
      | inl e => raise e
      end;
  let rts := roots z in
  e ← of_option IndexError (first rts);
  match e with
  | Complex _ _ => raise TypeError
  | Real endtime_dec =>
      endtime ← of_option ValueError (fromtimestamp_utc endtime_dec);
      ret (tdd, z, rts, endtime_dec, endtime)
  end.

(** Lines 164-169: the sampled curve and the label. *)
Definition sample_curve (tdd z : list float) (rts : root_array)
    (endtime_dec : float) (endtime : datetime) : M St locals :=
  t0 ← of_option IndexError (head tdd);
  let xp := linspace t0 endtime_dec 100 in
  newdates ← comprehension (fun x => of_option ValueError (fromtimestamp_utc x)) xp;
  let newfiles := map (polyval z) xp in
  theargmin ← of_option ValueError (nanargmin (map fabs newfiles));
  d ← of_option IndexError (newdates !! theargmin);
  ret (mk_locals tdd z rts endtime_dec endtime xp newdates newfiles theargmin
                 (strftime_HM d)).

Definition estimate (poly : Z) : M St locals :=
  '(tdd, z, rts, endtime_dec, endtime) ← fit_end poly;
  sample_curve tdd z rts endtime_dec endtime.

Definition plot_it (poly : Z) : M St unit :=
  L ← estimate poly;
  let save_name := "completion_time_k" ++ str_int poly ++ ".pdf" in
  io (savefig save_name ("Estimated completion time: " ++ completion_time L));;
  io (print ("Saved:  " ++ save_name));;
  ret tt.

End Numerics.

End Estimator.
Import Estimator.

(** Least squares and root finding carried out exactly for polynomials of
    degree at most one, where both have closed forms; they stand for
    [np.polyfit] and [np.roots] where the estimator is run on data.  Higher
    degrees are outside these two definitions and are not run. *)

Module Exact.

Definition fsum (l : list float) : float := fold_left fadd l (Fl 0).

Definition polyfit (x y : list float) (deg : Z) : exn + list float :=
  if (length x =? 0)%nat then inl TypeError
  else if negb (length x =? length y)%nat then inl TypeError
  else
    let n := of_int (Z.of_nat (length x)) in
    match deg with
    | 0 => inr [fdiv (fsum y) n]
    | 1 =>
        let sx := fsum x in
        let sy := fsum y in
        let sxx := fsum (map (fun a => fmul a a) x) in
        let sxy := fsum (zip_with fmul x y) in
        let slope := fdiv (fsub (fmul n sxy) (fmul sx sy))
                          (fsub (fmul n sxx) (fmul sx sx)) in
        inr [slope; fdiv (fsub sy (fmul slope sx)) n]
    | _ => inl ValueError
    end.

Definition is_zero (x : float) : bool :=
  match x with
  | Fl q => Qeq_bool q 0
  | NaN => false
  end.

Fixpoint strip_zeros (p : list float) : list float :=
  match p with
  | c :: r => if is_zero c then strip_zeros r else p
  | [] => []
  end.

(** [np.roots] strips the leading zero coefficients; a constant has no root;
    [a x + b] has the root [- b / a]. *)
Definition roots (p : list float) : root_array :=
  match strip_zeros p with
  | [a; b] => RealRoots [fdiv (fsub (Fl 0) b) a]
  | _ => RealRoots []
  end.

End Exact.

(** ** What the operations leave behind

    The outcomes of the store's operations written out on the world, for the
    statements of the properties. *)

Module Effects.

Definition tick (w : World) : World :=
  mk_world (fs w) (unwritable w) (clock w) (S (ticks w)) (stdin w) (trace w).

Definition put (path : string) (rows : list field) (w : World) : World :=
  mk_world (<[path := rows]> (fs w)) (unwritable w) (clock w) (ticks w) (stdin w)
           (trace w).

Definition upload_rows (o : TimeIt) : list field :=
  map (fun n => Num (to_float n)) (upload_data o).

Definition time_rows (o : TimeIt) : list field :=
  map (fun x => Text (str x)) (time_data o).

Definition appended (o : TimeIt) (t : datetime) (r : num) : TimeIt :=
  mk_TimeIt (upload_data o ++ [r]) (time_data o ++ [t]) (nfiles o).

(** What one write does, by whether its path can be written. *)
Definition written (path : string) (rows : list field) (o : TimeIt) (w : World)
  : res St unit :=
  if bool_decide (path ∈ unwritable w)
  then Raise (SystemExit (IOError path))
             (mk_St o (log (Printed ("IO error: " ++ path)%string) (log (SaveFailed path) w)))
  else Ret tt (mk_St o (log (Saved path) (put path rows w))).

(** The operation once the file number is chosen (lines 51-55). *)
Definition recorded (current_file : value) (s : St) : res St bool :=
  let w := tick (world s) in
  let t := clock (world s) (ticks (world s)) in
  let o1 := mk_TimeIt (upload_data (self s)) (time_data (self s) ++ [t])
                      (nfiles (self s)) in
  match int_sub (nfiles (self s)) current_file with
  | inl e => Raise e (mk_St o1 w)
  | inr r =>
      let o2 := appended (self s) t r in
      match written uploads_txt (upload_rows o2) o2 w with
      | Raise e s' => Raise e s'
      | Ret _ s' =>
          match written timestamps_txt (time_rows o2) o2 (world s') with
          | Raise e s'' => Raise e s''
          | Ret _ s'' => Ret true s''
          end
      end
  end.

(** Lines 47-50: the file number the operation goes on with, and the state it
    is in by then; nothing when the console has no answer to give. *)
Definition chosen (file_number : value) (s : St) : option (value * St) :=
  if truthy file_number then Some (file_number, s)
  else match stdin (world s) with
       | [] => None
       | a :: rest =>
           Some (a, mk_St (self s)
                      (mk_world (fs (world s)) (unwritable (world s)) (clock (world s))
                         (ticks (world s)) rest (trace (world s) ++ [Prompted prompt])))
       end.

Definition not_a_prompt (e : event) : Prop :=
  match e with
  | Prompted _ => False
  | _ => True
  end.

(** The calls of a client that records one explicit index after another, as
    the script at the end of the module does. *)
Fixpoint record_each (indices : list Z) : M St unit :=
  match indices with
  | [] => ret tt
  | i :: rest => add_to_dataset (VInt i);; record_each rest
  end.

(** Lines 53-54: both files are written. *)
Definition save : M St unit :=
  write_upload_data uploads_txt;; write_time_data timestamps_txt.

Definition saved_world (o : TimeIt) (w : World) : World :=
  log (Saved timestamps_txt)
    (put timestamps_txt (time_rows o)
       (log (Saved uploads_txt) (put uploads_txt (upload_rows o) w))).

Definition printable (x : datetime) : Prop :=
  valid x = true /\ tz x = Naive /\ microsecond x <> 0.

End Effects.
Import Effects.

(** The calendar checked date by date over a range of years. *)

Module CalendarCheck.

Definition check_day (y m d : Z) : bool :=
  let '(y', m', d') := ord2ymd (ymd2ord y m d) in
  (y' =? y) && (m' =? m) && (d' =? d).

Definition upto (n : Z) : list Z := map Z.of_nat (seq 1 (Z.to_nat n)).

Definition check_month (y m : Z) : bool :=
  forallb (check_day y m) (upto (days_in_month y m)).

Definition check_year (y : Z) : bool := forallb (check_month y) (upto 12).

End CalendarCheck.
Import CalendarCheck.

(** Worlds and objects the statements below are run on. *)

Module Fixtures.

Definition a_clock (n : nat) : datetime :=
  mk_datetime 2017 3 9 14 (Z.of_nat n) 7 250 Naive.

(** No file yet, every path writable, the console holding [answers]. *)
Definition fresh (answers : list value) : World :=
  mk_world ∅ ∅ a_clock 0 answers [].

Definition empty_timer (n : Z) : TimeIt := mk_TimeIt [] [] n.

(** Both files present, two samples in each. *)
Definition stored : World :=
  mk_world
    (<[uploads_txt := [Num (of_int 90); Num (of_int 80)]]>
       (<[timestamps_txt := [Text (str (a_clock 0)); Text (str (a_clock 1))]]> ∅))
    ∅ a_clock 2 [] [].

(** The counts file alone. *)
Definition counts_only : World :=
  mk_world (<[uploads_txt := [Num (of_int 90); Num (of_int 80)]]> ∅) ∅ a_clock 2 [] [].

(** The counts file cannot be written. *)
Definition uploads_locked : World :=
  mk_world ∅ {[uploads_txt]} a_clock 0 [] [].

(** Two samples a minute apart, and a parabola with the roots 10 and 30 handed
    back in the order 30, 10. *)
Definition two_samples : St :=
  mk_St (mk_TimeIt [NInt 90; NInt 80] [a_clock 0; a_clock 1] 100) (fresh []).

Definition parabola : list float := [Fl 1; Fl (-40); Fl 300].

(** Two samples a minute apart with no file uploaded in between. *)
Definition stalled : St :=
  mk_St (mk_TimeIt [NInt 90; NInt 90] [a_clock 0; a_clock 1] 100) (fresh []).

End Fixtures.
Import Fixtures.

(** * Properties *)

Local Close Scope string_scope.

(** ** The record operation *)

Module StoreFacts.

(** Runs the monadic glue of a method body. *)
Ltac run :=
  unfold mbind, M_bind, mret, M_ret, bind, ret, raise, io, get_self, set_self,
    try_except_IOError, io_error_handler, print, of_option in *;
  cbn [self world nfiles upload_data time_data].

Lemma written_Ret path rows o w u s' :
  written path rows o w = Ret u s' ->
  (path ∉ unwritable w) /\ s' = mk_St o (log (Saved path) (put path rows w)).
Proof.
  unfold written. case_bool_decide; [discriminate|].
  intros [= <- <-]. split; [assumption|reflexivity].
Qed.

Lemma written_Raise path rows o w e s' :
  written path rows o w = Raise e s' ->
  (path ∈ unwritable w) /\ e = SystemExit (IOError path) /\
  s' = mk_St o (log (Printed ("IO error: " ++ path)%string) (log (SaveFailed path) w)).
Proof.
  unfold written. case_bool_decide; [|discriminate].
  intros [= <- <-]. repeat split; assumption.
Qed.

Lemma write_upload_data_spec (path : string) (s : St) :
  write_upload_data path s = written path (upload_rows (self s)) (self s) (world s).
Proof.
  unfold write_upload_data, written, upload_rows, Np.savetxt.
  destruct s as [o w]; run.
  destruct (bool_decide (path ∈ unwritable w)); reflexivity.
Qed.

Lemma write_time_data_spec (path : string) (s : St) :
  write_time_data path s = written path (time_rows (self s)) (self s) (world s).
Proof.
  unfold write_time_data, written, time_rows, Np.savetxt.
  destruct s as [o w]; run.
  destruct (bool_decide (path ∈ unwritable w)); reflexivity.
Qed.

Lemma add_to_dataset_spec (file_number : value) (s : St) :
  add_to_dataset file_number s =
    if truthy file_number then recorded file_number s
    else match stdin (world s) with
         | [] => Raise EOFError (mk_St (self s) (log (Prompted prompt) (world s)))
         | a :: rest =>
             recorded a
               (mk_St (self s)
                  (mk_world (fs (world s)) (unwritable (world s)) (clock (world s))
                     (ticks (world s)) rest (trace (world s) ++ [Prompted prompt])))
         end.
Proof.
  destruct s as [o w]. unfold add_to_dataset, recorded, input, now.
  destruct (truthy file_number); run.
  - destruct (int_sub (nfiles o) file_number); run; [reflexivity|].
    rewrite write_upload_data_spec; cbn [self world]; unfold appended, tick.
    destruct (written uploads_txt _ _ _) as [[] s1|e s1] eqn:E; [|reflexivity].
    apply written_Ret in E as [_ ->].
    rewrite write_time_data_spec. reflexivity.
  - unfold log; cbn [fs unwritable clock ticks trace stdin].
    destruct (stdin w) as [|a rest]; run; [reflexivity|].
    cbn [fs unwritable clock ticks trace stdin].
    destruct (int_sub (nfiles o) a); run; [reflexivity|].
    rewrite write_upload_data_spec; cbn [self world]; unfold appended, tick.
    cbn [fs unwritable clock ticks trace stdin].
    destruct (written uploads_txt _ _ _) as [[] s1|e s1] eqn:E; [|reflexivity].
    apply written_Ret in E as [_ ->].
    rewrite write_time_data_spec. reflexivity.
Qed.


(** An explicit, true file number goes straight to [recorded]. *)
Lemma add_to_dataset_explicit (file_number : value) (s : St) :
  truthy file_number = true -> add_to_dataset file_number s = recorded file_number s.
Proof. intros H. rewrite add_to_dataset_spec, H. reflexivity. Qed.

(** [recorded] when both files can be written. *)
Lemma recorded_writable (current_file : value) (r : num) (s : St) :
  int_sub (nfiles (self s)) current_file = inr r ->
  uploads_txt ∉ unwritable (world s) ->
  timestamps_txt ∉ unwritable (world s) ->
  let o2 := appended (self s) (clock (world s) (ticks (world s))) r in
  recorded current_file s =
    Ret true (mk_St o2 (log (Saved timestamps_txt)
                          (put timestamps_txt (time_rows o2)
                             (log (Saved uploads_txt)
                                (put uploads_txt (upload_rows o2) (tick (world s))))))).
Proof.
  intros Hr Hu Ht. unfold recorded, written. rewrite Hr.
  cbn [tick unwritable]. rewrite bool_decide_eq_false_2 by assumption.
  cbn [world log put unwritable]. rewrite bool_decide_eq_false_2 by assumption.
  reflexivity.
Qed.

(** What [recorded] leaves behind, whatever the outcome: the console is not
    touched, the new events are writes and prints, and the counts grow by the
    difference when there is one. *)
Lemma recorded_effects (current_file : value) (s : St) :
  let s' := state_of (recorded current_file s) in
  stdin (world s') = stdin (world s) /\
  (exists tl, trace (world s') = trace (world s) ++ tl /\ Forall not_a_prompt tl) /\
  upload_data (self s') =
    match int_sub (nfiles (self s)) current_file with
    | inr r => upload_data (self s) ++ [r]
    | inl _ => upload_data (self s)
    end /\
  length (time_data (self s')) = S (length (time_data (self s))) /\
  nfiles (self s') = nfiles (self s).
Proof.
  destruct s as [o w]. unfold recorded, written. cbn [self world].
  destruct (int_sub (nfiles o) current_file) as [e|r]; cbn [state_of self world].
  - repeat split; try reflexivity.
    + exists []. rewrite app_nil_r. split; [reflexivity|constructor].
    + cbn. rewrite length_app. cbn. lia.
  - cbn [tick unwritable]. case_bool_decide;
      [|cbn [state_of self world log put unwritable]; case_bool_decide];
      cbn [state_of self world log put unwritable stdin trace appended
           upload_data time_data nfiles];
      (repeat split; try reflexivity;
       [ eexists; rewrite <- ?app_assoc; split; [reflexivity|repeat constructor]
       | rewrite length_app; cbn; lia ]).
Qed.

Lemma record_each_nonzero (indices : list Z) (s : St) :
  Forall (fun i => i <> 0) indices ->
  uploads_txt ∉ unwritable (world s) ->
  timestamps_txt ∉ unwritable (world s) ->
  exists s',
    record_each indices s = Ret tt s' /\
    upload_data (self s') =
      upload_data (self s) ++ map (fun i => NInt (nfiles (self s) - i)) indices /\
    length (time_data (self s')) = (length (time_data (self s)) + length indices)%nat /\
    nfiles (self s') = nfiles (self s) /\
    unwritable (world s') = unwritable (world s).
Proof.
  intros Hnz. revert s. induction Hnz as [|i rest Hi _ IH]; intros s Hu Ht.
  - exists s. cbn. rewrite app_nil_r, Nat.add_0_r. repeat split; reflexivity.
  - cbn [record_each]. unfold mbind, M_bind, bind.
    rewrite add_to_dataset_explicit
      by (cbn; apply negb_true_iff, Z.eqb_neq; assumption).
    erewrite recorded_writable by (try eassumption; reflexivity).
    cbv zeta.
    match goal with |- context [record_each rest ?s1] =>
      destruct (IH s1) as (s' & E & Hud & Hlen & Hn & Hw); [assumption..|] end.
    exists s'. split; [exact E|].
    cbn [self world appended upload_data time_data nfiles] in Hud, Hlen, Hn, Hw.
    rewrite Hud, Hlen, Hn, Hw. rewrite <- app_assoc, length_app. cbn.
    repeat split; try reflexivity. lia.
Qed.

End StoreFacts.

Module StoreClaims.
Import StoreFacts.

(** C3, at the input where the code departs from it.  The claim: for every
    current index the record operation computes [total_files - current_index],
    appends it with the current time, persists both files and returns.  With
    the explicit index 0 and total 100 the operation asks the console, and
    with the answer 7 it records 93 where the claim says 100. *)
Theorem record_index_zero_asks_console :
  exists s',
    add_to_dataset (VInt 0) (mk_St (empty_timer 100) (fresh [VInt 7])) = Ret true s' /\
    upload_data (self s') = [NInt 93] /\
    upload_data (self s') <> [NInt (100 - 0)] /\
    trace (world s') = [Prompted prompt; Saved uploads_txt; Saved timestamps_txt] /\
    fs (world s') !! uploads_txt = Some [Num (of_int 93)].
Proof.
  eexists. split; [vm_compute; reflexivity|].
  repeat split; try reflexivity. discriminate.
Qed.

(** C4, at the input where the code departs from it.  The claim: after [k]
    calls with explicit indices from an empty dataset both sequences have
    length [k] and the [i]-th count is [total_files - index_i].  With the
    indices 10 and 0 the second call asks the console: a numeric answer 7 gives
    the counts 90 and 93, not 90 and 100, and an answer that is text raises
    [TypeError] after the time was appended, which leaves two times and one
    count. *)
Theorem record_index_zero_breaks_append_invariant :
  (exists s',
     record_each [10; 0] (mk_St (empty_timer 100) (fresh [VInt 7])) = Ret tt s' /\
     upload_data (self s') = [NInt 90; NInt 93] /\
     upload_data (self s') <> map (fun i => NInt (100 - i)) [10; 0]) /\
  (exists s',
     record_each [10; 0] (mk_St (empty_timer 100) (fresh [VStr "20"])) =
       Raise TypeError s' /\
     length (time_data (self s')) = 2%nat /\
     length (upload_data (self s')) = 1%nat).
Proof.
  split; eexists; (split; [vm_compute; reflexivity|]).
  - split; [reflexivity|discriminate].
  - split; reflexivity.
Qed.

(** C10: a file number that is false in a condition (0, [None], [False], 0.0,
    the empty string) is not used; the operation asks the console and records
    from the answer.  A file number that is true is used as it is, and the
    console is not asked. *)
Theorem add_to_dataset_falsy_file_number_prompts (file_number : value) (s : St) :
  let s' := state_of (add_to_dataset file_number s) in
  if truthy file_number then
    stdin (world s') = stdin (world s) /\
    (exists tl, trace (world s') = trace (world s) ++ tl /\ Forall not_a_prompt tl) /\
    upload_data (self s') =
      match int_sub (nfiles (self s)) file_number with
      | inr r => upload_data (self s) ++ [r]
      | inl _ => upload_data (self s)
      end
  else
    (exists tl, trace (world s') = trace (world s) ++ Prompted prompt :: tl /\
                Forall not_a_prompt tl) /\
    match stdin (world s) with
    | [] => add_to_dataset file_number s =
              Raise EOFError (mk_St (self s) (log (Prompted prompt) (world s)))
    | answer :: rest =>
        stdin (world s') = rest /\
        upload_data (self s') =
          match int_sub (nfiles (self s)) answer with
          | inr r => upload_data (self s) ++ [r]
          | inl _ => upload_data (self s)
          end
    end.
Proof.
  intros s'. subst s'. rewrite add_to_dataset_spec.
  destruct (truthy file_number).
  - destruct (recorded_effects file_number s) as (H1 & H2 & H3 & _).
    repeat split; assumption.
  - destruct (stdin (world s)) as [|answer rest] eqn:E.
    + split; [|reflexivity]. exists []. cbn. split; [reflexivity|constructor].
    + match goal with |- context [recorded answer ?s1] =>
        destruct (recorded_effects answer s1) as (H1 & (tl & H2 & H2') & H3 & _) end.
      cbn [self world stdin trace] in H1, H2, H3.
      repeat split; try assumption.
      exists tl. rewrite H2, <- app_assoc. split; [reflexivity|assumption].
Qed.

(** C5, at every input, and so where the code departs from the claim.  The
    claim: at construction the dataset is loaded from the persisted files when
    they are present.  The constructor reads with [init=1], which makes both
    readers return the empty list whatever the files hold. *)
Theorem init_ignores_persisted_files (n : Z) (w : World) :
  init_ n w = Ret (mk_TimeIt [] [] n) w /\
  (is_Some (fs stored !! uploads_txt) /\ is_Some (fs stored !! timestamps_txt) /\
   init_ n stored = Ret (mk_TimeIt [] [] n) stored).
Proof.
  assert (H : forall w0, init_ n w0 = Ret (mk_TimeIt [] [] n) w0).
  { intros w0. unfold init_, read_upload_data, read_time_data, exists_.
    unfold mbind, M_bind, bind, ret.
    rewrite !andb_false_r. reflexivity. }
  split; [apply H|].
  split; [eexists; vm_compute; reflexivity|].
  split; [eexists; vm_compute; reflexivity|apply H].
Qed.

(** C6 as stated fails: with the counts file present and the timestamps file
    absent, loading (with [init=0]) gives back the two counts, not an empty
    dataset. *)
Lemma load_reads_counts_without_timestamps :
  fs counts_only !! timestamps_txt = None /\
  read_upload_data 0 uploads_txt counts_only =
    Ret [NFloat (of_int 90); NFloat (of_int 80)] counts_only /\
  read_time_data 0 timestamps_txt counts_only = Ret [] counts_only.
Proof. repeat split; vm_compute; reflexivity. Qed.

(** C6, amended: each reader looks at its own file only.  What it returns is
    fixed by that file, whatever else the file system holds, and it returns the
    empty list when that file is absent, or when [init] is not 0 as at
    construction. *)
Theorem load_reader_depends_on_own_file (init : Z) (path : string) (w w' : World) :
  fs w !! path = fs w' !! path ->
  outcome (read_upload_data init path w) = outcome (read_upload_data init path w') /\
  outcome (read_time_data init path w) = outcome (read_time_data init path w') /\
  (fs w !! path = None \/ init <> 0 ->
   read_upload_data init path w = Ret [] w /\ read_time_data init path w = Ret [] w).
Proof.
  intros E.
  unfold read_upload_data, read_time_data, exists_, Np.loadtxt, Np.loadtxt_str.
  unfold mbind, M_bind, bind, ret. cbv beta. rewrite <- E.
  destruct (bool_decide (is_Some (fs w !! path)) && (init =? 0)) eqn:B; cbv beta.
  - apply andb_true_iff in B as [B I]. apply bool_decide_eq_true in B as [rows F].
    apply Z.eqb_eq in I. rewrite <- E, F.
    split; [|split].
    + destruct (mapM Np.float_of_field rows) as [xs|]; [|reflexivity].
      destruct (Np.squeeze xs); reflexivity.
    + destruct (Np.squeeze rows) as [x|l]; cbn; [reflexivity|].
      generalize l. clear. intros l.
      assert (H : forall (u v : World),
                outcome (comprehension strptime_field l u) =
                outcome (comprehension strptime_field l v)).
      { induction l as [|f l IH]; intros u v; [reflexivity|].
        cbn [comprehension]. unfold mbind, M_bind, bind.
        destruct f as [x|t]; cbn; [reflexivity|].
        destruct (strptime t); cbn; [|reflexivity].
        specialize (IH u v).
        destruct (comprehension strptime_field l u),
                 (comprehension strptime_field l v); cbn in *; congruence. }
      apply H.
    + intros [?|?]; [discriminate|contradiction].
  - repeat split; reflexivity.
Qed.

Lemma load_reader_depends_on_own_file_witness :
  fs counts_only !! timestamps_txt = fs (fresh []) !! timestamps_txt /\
  outcome (read_time_data 0 timestamps_txt counts_only) =
    outcome (read_time_data 0 timestamps_txt (fresh [])).
Proof.
  assert (E : fs counts_only !! timestamps_txt = fs (fresh []) !! timestamps_txt)
    by (vm_compute; reflexivity).
  split; [exact E|].
  exact (proj1 (proj2 (load_reader_depends_on_own_file 0 timestamps_txt counts_only
                         (fresh []) E))).
Defined.

(** C8: a write that fails is fatal.  Once the file number is chosen and the
    count computed, the operation ends in [SystemExit] as soon as one of the
    two writes raises [IOError]: the write is attempted once, the sample stays
    appended in memory, and a counts file already replaced stays replaced when
    the timestamps file fails.  When both paths can be written nothing is
    raised. *)
Theorem add_to_dataset_write_failure_is_fatal
    (file_number current_file : value) (r : num) (s s1 : St) :
  chosen file_number s = Some (current_file, s1) ->
  int_sub (nfiles (self s1)) current_file = inr r ->
  let w := tick (world s1) in
  let o2 := appended (self s1) (clock (world s1) (ticks (world s1))) r in
  let w1 := log (Saved uploads_txt) (put uploads_txt (upload_rows o2) w) in
  add_to_dataset file_number s =
    if bool_decide (uploads_txt ∈ unwritable (world s1)) then
      Raise (SystemExit (IOError uploads_txt))
            (mk_St o2 (log (Printed ("IO error: " ++ uploads_txt)%string)
                         (log (SaveFailed uploads_txt) w)))
    else if bool_decide (timestamps_txt ∈ unwritable (world s1)) then
      Raise (SystemExit (IOError timestamps_txt))
            (mk_St o2 (log (Printed ("IO error: " ++ timestamps_txt)%string)
                         (log (SaveFailed timestamps_txt) w1)))
    else
      Ret true (mk_St o2 (log (Saved timestamps_txt)
                            (put timestamps_txt (time_rows o2) w1))).
Proof.
  intros Hc Hr w o2 w1.
  assert (E : add_to_dataset file_number s = recorded current_file s1).
  { rewrite add_to_dataset_spec. unfold chosen in Hc.
    destruct (truthy file_number); [injection Hc as <- <-; reflexivity|].
    destruct (stdin (world s)) as [|a rest]; [discriminate|].
    injection Hc as <- <-. reflexivity. }
  rewrite E. unfold recorded, written. rewrite Hr. fold w. fold o2.
  change (unwritable w) with (unwritable (world s1)).
  case_bool_decide; [reflexivity|].
  cbn [world]. fold w1. change (unwritable w1) with (unwritable (world s1)).
  case_bool_decide; reflexivity.
Qed.

Lemma add_to_dataset_write_failure_is_fatal_witness :
  exists s',
    add_to_dataset (VInt 10) (mk_St (empty_timer 100) uploads_locked) =
      Raise (SystemExit (IOError uploads_txt)) s' /\
    upload_data (self s') = [NInt 90] /\
    trace (world s') =
      [SaveFailed uploads_txt; Printed ("IO error: " ++ uploads_txt)%string].
Proof.
  eexists. split.
  - rewrite (add_to_dataset_write_failure_is_fatal (VInt 10) (VInt 10) (NInt 90)
               (mk_St (empty_timer 100) uploads_locked)
               (mk_St (empty_timer 100) uploads_locked) eq_refl eq_refl).
    vm_compute. reflexivity.
  - split; reflexivity.
Defined.

End StoreClaims.

(** ** Timestamps as text *)

Module TextFacts.

Example str_with_fraction :
  str (mk_datetime 2017 3 9 14 5 7 250 Naive) = "2017-03-09 14:05:07.000250"%string.
Proof. reflexivity. Qed.

Example str_whole_second :
  str (mk_datetime 2017 3 9 14 5 7 0 Naive) = "2017-03-09 14:05:07"%string.
Proof. reflexivity. Qed.

Example strptime_reads_fraction :
  strptime "2017-03-09 14:05:07.000250" = Some (mk_datetime 2017 3 9 14 5 7 250 Naive).
Proof. reflexivity. Qed.

(** The directives accept numerals without padding and a short fraction. *)
Example strptime_short_fields :
  strptime "2017-3-9 4:05:07.25" = Some (mk_datetime 2017 3 9 4 5 7 250000 Naive).
Proof. reflexivity. Qed.

Example strptime_whole_second : strptime "2017-03-09 14:05:07" = None.
Proof. reflexivity. Qed.

Example strptime_no_such_day : strptime "2017-02-29 14:05:07.000250" = None.
Proof. reflexivity. Qed.

Lemma code_digit_char (d : Z) : 0 <= d <= 9 -> code (digit_char d) = 48 + d.
Proof.
  intros H. unfold code, digit_char.
  rewrite nat_ascii_embedding by lia. lia.
Qed.

Lemma is_digit_digit_char (d : Z) : 0 <= d <= 9 -> is_digit (digit_char d) = true.
Proof.
  intros H. unfold is_digit. rewrite code_digit_char by assumption.
  apply andb_true_iff. split; apply Z.leb_le; lia.
Qed.

Lemma digit_val_digit_char (d : Z) : 0 <= d <= 9 -> digit_val (digit_char d) = d.
Proof. intros H. unfold digit_val. rewrite code_digit_char by assumption. lia. Qed.

Lemma fixed_digits_length (w : nat) (n : Z) : length (fixed_digits w n) = w.
Proof.
  revert n. induction w as [|w IH]; intros n; [reflexivity|].
  cbn [fixed_digits]. rewrite length_app, IH. cbn. lia.
Qed.

Lemma fixed_digits_all_digits (w : nat) (n : Z) :
  Forall (fun c => is_digit c = true) (fixed_digits w n).
Proof.
  revert n. induction w as [|w IH]; intros n; [constructor|].
  cbn [fixed_digits]. apply Forall_app. split; [apply IH|].
  constructor; [|constructor].
  apply is_digit_digit_char. pose proof (Z.mod_pos_bound n 10). lia.
Qed.

Lemma digits_val_snoc (ds : list ascii) (c : ascii) :
  digits_val (ds ++ [c]) = digits_val ds * 10 + digit_val c.
Proof. unfold digits_val. rewrite fold_left_app. reflexivity. Qed.

Lemma digits_val_fixed_digits (w : nat) (n : Z) :
  0 <= n < 10 ^ Z.of_nat w -> digits_val (fixed_digits w n) = n.
Proof.
  revert n. induction w as [|w IH]; intros n H.
  - cbn in *. lia.
  - cbn [fixed_digits]. rewrite digits_val_snoc.
    rewrite Nat2Z.inj_succ, Z.pow_succ_r in H by lia.
    rewrite IH.
    + rewrite digit_val_digit_char by (pose proof (Z.mod_pos_bound n 10); lia).
      pose proof (Z.div_mod n 10). lia.
    + split; [apply Z.div_pos; lia|].
      apply Z.div_lt_upper_bound; lia.
Qed.

(** A run of digits is read whole when what follows is no digit. *)
Lemma span_digits_app (ds r : list ascii) :
  Forall (fun c => is_digit c = true) ds ->
  match r with [] => True | c :: _ => is_digit c = false end ->
  span_digits (ds ++ r) = (ds, r).
Proof.
  intros Hds Hr. induction Hds as [|c ds Hc _ IH]; cbn [app span_digits].
  - destruct r as [|c r']; [reflexivity|]. cbn [span_digits]. rewrite Hr. reflexivity.
  - rewrite Hc, IH. reflexivity.
Qed.

Lemma span_fixed (w : nat) (n : Z) (r : list ascii) :
  match r with [] => True | c :: _ => is_digit c = false end ->
  span_digits (fixed_digits w n ++ r) = (fixed_digits w n, r).
Proof. intros H. apply span_digits_app; [apply fixed_digits_all_digits|exact H]. Qed.

(** A two-digit field is read back by its directive. *)
Lemma directive_fixed2 (one two : Z -> bool) (v : Z) (r : list ascii) :
  0 <= v < 100 -> two v = true ->
  match r with [] => True | c :: _ => is_digit c = false end ->
  directive one two (fixed_digits 2 v ++ r) = Some (v, r).
Proof.
  intros Hv Htwo Hr. unfold directive. rewrite span_fixed by assumption.
  rewrite fixed_digits_length, digits_val_fixed_digits by (cbn; lia).
  rewrite Htwo. reflexivity.
Qed.

Lemma valid_fields_bounds (y m d hh mm ss us : Z) :
  valid_fields y m d hh mm ss us = true ->
  1 <= y <= 9999 /\ 1 <= m <= 12 /\ 1 <= d <= days_in_month y m /\
  0 <= hh <= 23 /\ 0 <= mm <= 59 /\ 0 <= ss <= 59 /\ 0 <= us <= 999999.
Proof.
  unfold valid_fields. rewrite !andb_true_iff, !Z.leb_le. tauto.
Qed.

Lemma days_in_month_le_31 (y m : Z) : days_in_month y m <= 31.
Proof.
  unfold days_in_month, DAYS_IN_MONTH.
  destruct ((m =? 2) && is_leap y); [lia|].
  destruct m as [|p|p]; cbn; try lia.
  repeat (destruct p as [p|p|]; cbn; try lia).
Qed.

Lemma between_true (lo hi v : Z) : lo <= v <= hi -> between lo hi v = true.
Proof. intros H. unfold between. apply andb_true_iff. split; apply Z.leb_le; lia. Qed.

Lemma mod10_digit (n : Z) : 0 <= n mod 10 <= 9.
Proof. pose proof (Z.mod_pos_bound n 10). lia. Qed.

Lemma dir_d_fixed2 (d : Z) (r : list ascii) :
  1 <= d <= 31 ->
  match r with [] => True | c :: _ => is_digit c = false end ->
  dir_d (fixed_digits 2 d ++ r) = Some (d, r).
Proof.
  intros Hd Hr.
  pose proof (directive_fixed2 (between 1 9) (between 1 31) d r
                ltac:(lia) (between_true _ _ _ Hd) Hr) as D.
  unfold dir_d. cbn [fixed_digits app] in *.
  rewrite code_digit_char by apply mod10_digit.
  destruct (48 + (d / 10) mod 10 =? 32) eqn:E; [|exact D].
  apply Z.eqb_eq in E. pose proof (mod10_digit (d / 10)). lia.
Qed.

Lemma skip_spaces_fixed2 (v : Z) (r : list ascii) :
  skip_spaces (fixed_digits 2 v ++ r) = fixed_digits 2 v ++ r.
Proof.
  cbn [fixed_digits app skip_spaces]. unfold is_space.
  rewrite code_digit_char by apply mod10_digit.
  pose proof (mod10_digit (v / 10)).
  replace (48 + (v / 10) mod 10 =? 32) with false by (symmetry; apply Z.eqb_neq; lia).
  replace (48 + (v / 10) mod 10 <=? 13) with false by (symmetry; apply Z.leb_gt; lia).
  rewrite andb_false_r. reflexivity.
Qed.

(** Reading back what [str] prints: the identity on a naive datetime with a
    fraction. *)
Lemma strptime_str (x : datetime) :
  valid x = true -> tz x = Naive -> microsecond x <> 0 -> strptime (str x) = Some x.
Proof.
  destruct x as [y m d hh mm ss us t]. unfold valid. cbn [year month day hour minute
    second microsecond tz]. intros V -> Hus.
  pose proof (valid_fields_bounds _ _ _ _ _ _ _ V) as (Hy & Hm & Hd & Hh & Hmi & Hs & Hu).
  pose proof (days_in_month_le_31 y m) as Hdim.
  unfold strptime, str. unfold chr at 1. rewrite list_ascii_of_string_of_list_ascii.
  unfold str_chars. cbn [year month day hour minute second microsecond tz].
  destruct (us =? 0) eqn:E; [apply Z.eqb_eq in E; contradiction|].
  unfold chr. cbn [list_ascii_of_string app]. rewrite app_nil_r.
  unfold dir_Y. rewrite span_fixed by reflexivity.
  rewrite fixed_digits_length, digits_val_fixed_digits by (cbn; lia).
  cbn [Nat.eqb mbind option_bind]. change (lit 45 ("-"%char :: ?r)) with (Some r).
  cbn [mbind option_bind].
  unfold dir_m. rewrite directive_fixed2 by (try apply between_true; try reflexivity; lia).
  cbn [mbind option_bind]. change (lit 45 ("-"%char :: ?r)) with (Some r).
  cbn [mbind option_bind].
  rewrite dir_d_fixed2 by (try reflexivity; lia).
  cbn [mbind option_bind]. change (spaces1 (" "%char :: ?r)) with (Some (skip_spaces r)).
  rewrite skip_spaces_fixed2. cbn [mbind option_bind].
  unfold dir_H. rewrite directive_fixed2 by (try apply between_true; try reflexivity; lia).
  cbn [mbind option_bind]. change (lit 58 (":"%char :: ?r)) with (Some r).
  cbn [mbind option_bind].
  unfold dir_M. rewrite directive_fixed2 by (try apply between_true; try reflexivity; lia).
  cbn [mbind option_bind]. change (lit 58 (":"%char :: ?r)) with (Some r).
  cbn [mbind option_bind].
  unfold dir_S. rewrite directive_fixed2 by (try apply between_true; try reflexivity; lia).
  cbn [mbind option_bind]. change (lit 46 ("."%char :: ?r)) with (Some r).
  cbn [mbind option_bind].
  unfold dir_f. rewrite <- (app_nil_r (fixed_digits 6 us)).
  rewrite span_fixed by exact I.
  rewrite fixed_digits_length, digits_val_fixed_digits by (cbn; lia).
  cbn [Nat.leb andb Nat.sub Z.of_nat Z.pow mbind option_bind].
  rewrite Z.mul_1_r. unfold make. rewrite V. reflexivity.
Qed.

Lemma directive_fixed2_rest (one two : Z -> bool) (v : Z) (r : list ascii) :
  match r with [] => True | c :: _ => is_digit c = false end ->
  directive one two (fixed_digits 2 v ++ r) =
    if two (digits_val (fixed_digits 2 v))
    then Some (digits_val (fixed_digits 2 v), r) else None.
Proof.
  intros Hr. unfold directive. rewrite span_fixed by assumption.
  rewrite fixed_digits_length. reflexivity.
Qed.

Lemma dir_d_fixed2_rest (d : Z) (r : list ascii) :
  match r with [] => True | c :: _ => is_digit c = false end ->
  dir_d (fixed_digits 2 d ++ r) =
    if between 1 31 (digits_val (fixed_digits 2 d))
    then Some (digits_val (fixed_digits 2 d), r) else None.
Proof.
  intros Hr. rewrite <- (directive_fixed2_rest (between 1 9)) by assumption.
  unfold dir_d. cbn [fixed_digits app].
  rewrite code_digit_char by apply mod10_digit.
  destruct (48 + (d / 10) mod 10 =? 32) eqn:E; [|reflexivity].
  apply Z.eqb_eq in E. pose proof (mod10_digit (d / 10)). lia.
Qed.

(** A whole second is printed without the fraction, and that text is refused. *)
Lemma strptime_str_whole_second (x : datetime) :
  tz x = Naive -> microsecond x = 0 -> strptime (str x) = None.
Proof.
  destruct x as [y m d hh mm ss us t].
  cbn [year month day hour minute second microsecond tz]. intros -> ->.
  unfold strptime, str. unfold chr at 1. rewrite list_ascii_of_string_of_list_ascii.
  unfold str_chars. cbn [year month day hour minute second microsecond tz Z.eqb].
  unfold chr. cbn [list_ascii_of_string app]. rewrite !app_nil_r.
  unfold dir_Y. rewrite span_fixed by reflexivity.
  rewrite fixed_digits_length.
  cbn [Nat.eqb mbind option_bind]. change (lit 45 ("-"%char :: ?r)) with (Some r).
  cbn [mbind option_bind].
  unfold dir_m. rewrite directive_fixed2_rest by reflexivity.
  destruct (between 1 12 _); [|reflexivity].
  cbn [mbind option_bind]. change (lit 45 ("-"%char :: ?r)) with (Some r).
  cbn [mbind option_bind].
  rewrite dir_d_fixed2_rest by reflexivity.
  destruct (between 1 31 _); [|reflexivity].
  cbn [mbind option_bind]. change (spaces1 (" "%char :: ?r)) with (Some (skip_spaces r)).
  rewrite skip_spaces_fixed2. cbn [mbind option_bind].
  unfold dir_H. rewrite directive_fixed2_rest by reflexivity.
  destruct (between 0 23 _); [|reflexivity].
  cbn [mbind option_bind]. change (lit 58 (":"%char :: ?r)) with (Some r).
  cbn [mbind option_bind].
  unfold dir_M. rewrite directive_fixed2_rest by reflexivity.
  destruct (between 0 59 _); [|reflexivity].
  cbn [mbind option_bind]. change (lit 58 (":"%char :: ?r)) with (Some r).
  cbn [mbind option_bind].
  unfold dir_S. rewrite <- (app_nil_r (fixed_digits 2 ss)).
  rewrite directive_fixed2_rest by exact I.
  destruct (between 0 61 _); reflexivity.
Qed.

End TextFacts.

(** ** Writing the dataset and loading it back *)

Module RoundTrip.
Import StoreFacts StoreClaims TextFacts.

Lemma save_writable (o : TimeIt) (w : World) :
  uploads_txt ∉ unwritable w -> timestamps_txt ∉ unwritable w ->
  save (mk_St o w) = Ret tt (mk_St o (saved_world o w)).
Proof.
  intros Hu Ht. unfold save, mbind, M_bind, bind.
  rewrite write_upload_data_spec. unfold written at 1. cbn [self world].
  rewrite bool_decide_eq_false_2 by assumption.
  rewrite write_time_data_spec. unfold written. cbn [self world log put unwritable].
  rewrite bool_decide_eq_false_2 by assumption. reflexivity.
Qed.

Lemma saved_uploads (o : TimeIt) (w : World) :
  fs (saved_world o w) !! uploads_txt = Some (upload_rows o).
Proof.
  unfold saved_world, log, put. cbn [fs].
  rewrite lookup_insert_ne by discriminate. apply lookup_insert_eq.
Qed.

Lemma saved_timestamps (o : TimeIt) (w : World) :
  fs (saved_world o w) !! timestamps_txt = Some (time_rows o).
Proof. unfold saved_world, log, put. cbn [fs]. apply lookup_insert_eq. Qed.

Lemma mapM_float_rows (l : list num) :
  mapM Np.float_of_field (map (fun n => Num (to_float n)) l) = Some (map to_float l).
Proof.
  induction l as [|n l IH]; [reflexivity|].
  cbn [map mapM Np.float_of_field]. rewrite IH. reflexivity.
Qed.

Lemma squeeze_not_one {A} (l : list A) : length l <> 1%nat -> Np.squeeze l = Np.Arr1 l.
Proof. destruct l as [|a [|b l]]; cbn; intros H; [reflexivity|lia|reflexivity]. Qed.

Lemma comprehension_strptime (l : list datetime) (w : World) :
  Forall printable l ->
  comprehension strptime_field (map (fun x => Text (str x)) l) w = Ret l w.
Proof.
  induction 1 as [|x l (V & N & U) _ IH]; [reflexivity|].
  cbn [map comprehension]. unfold mbind, M_bind, bind.
  cbn [strptime_field]. rewrite strptime_str by assumption.
  unfold ret at 1. rewrite IH. reflexivity.
Qed.

(** Where the round trip holds: no or at least two samples, and every
    timestamp valid, naive and off the whole second.  The counts come back as
    the floats they denote. *)
Lemma save_then_load (o : TimeIt) (w : World) :
  uploads_txt ∉ unwritable w -> timestamps_txt ∉ unwritable w ->
  length (upload_data o) <> 1%nat -> length (time_data o) <> 1%nat ->
  Forall printable (time_data o) ->
  let w' := saved_world o w in
  save (mk_St o w) = Ret tt (mk_St o w') /\
  read_upload_data 0 uploads_txt w' = Ret (map (fun n => NFloat (to_float n)) (upload_data o)) w' /\
  read_time_data 0 timestamps_txt w' = Ret (time_data o) w'.
Proof.
  intros Hu Ht Lu Lt P w'. split; [apply save_writable; assumption|].
  unfold read_upload_data, read_time_data, exists_, Np.loadtxt, Np.loadtxt_str.
  unfold mbind, M_bind, bind, ret. cbv beta. subst w'.
  rewrite saved_uploads, saved_timestamps.
  rewrite !bool_decide_eq_true_2 by (eexists; reflexivity).
  cbn [andb Z.eqb]. split.
  - rewrite saved_uploads. unfold upload_rows. rewrite mapM_float_rows.
    rewrite squeeze_not_one by (rewrite length_map; assumption).
    cbn [Np.iter]. unfold ret. rewrite map_map. reflexivity.
  - rewrite saved_timestamps. unfold time_rows.
    rewrite squeeze_not_one by (rewrite length_map; assumption).
    cbn [Np.iter]. unfold ret. apply comprehension_strptime. assumption.
Qed.

(** C7, at the inputs where the code departs from it.  The claim: writing the
    samples and loading them back gives the same samples.  A dataset of one
    sample is written as one row, which [loadtxt] gives back as an array
    without dimension, and iterating that raises [TypeError] in both readers.
    A timestamp on a whole second is written without its fraction, which the
    format of the reader requires: [ValueError]. *)
Theorem save_then_load_fails :
  let one := mk_TimeIt [NInt 90] [a_clock 0] 100 in
  let whole := mk_datetime 2017 3 9 14 1 7 0 Naive in
  let two := mk_TimeIt [NInt 90; NInt 80] [a_clock 0; whole] 100 in
  (save (mk_St one (fresh [])) = Ret tt (mk_St one (saved_world one (fresh []))) /\
   outcome (read_upload_data 0 uploads_txt (saved_world one (fresh []))) = inl TypeError /\
   outcome (read_time_data 0 timestamps_txt (saved_world one (fresh []))) = inl TypeError) /\
  (save (mk_St two (fresh [])) = Ret tt (mk_St two (saved_world two (fresh []))) /\
   valid whole = true /\
   outcome (read_upload_data 0 uploads_txt (saved_world two (fresh []))) =
     inr [NFloat (of_int 90); NFloat (of_int 80)] /\
   outcome (read_time_data 0 timestamps_txt (saved_world two (fresh []))) = inl ValueError).
Proof.
  cbv zeta. repeat split; try (apply save_writable; apply not_elem_of_empty);
    vm_compute; reflexivity.
Qed.

End RoundTrip.

(** ** The calendar *)

Module CalendarFacts.

Lemma in_upto (n i : Z) : 1 <= i <= n -> In i (upto n).
Proof.
  intros H. unfold upto. apply in_map_iff. exists (Z.to_nat i).
  split; [lia|]. apply in_seq. lia.
Qed.

(** One period of the Gregorian calendar, day by day. *)
Lemma first_period_checked : forallb check_year (upto 400) = true.
Proof. vm_compute. reflexivity. Qed.

Lemma ord2ymd_ymd2ord_first_period (y m d : Z) :
  1 <= y <= 400 -> 1 <= m <= 12 -> 1 <= d <= days_in_month y m ->
  ord2ymd (ymd2ord y m d) = (y, m, d).
Proof.
  intros Hy Hm Hd.
  pose proof first_period_checked as C.
  rewrite forallb_forall in C. specialize (C y (in_upto _ _ Hy)).
  unfold check_year in C. rewrite forallb_forall in C.
  specialize (C m (in_upto _ _ Hm)).
  unfold check_month in C. rewrite forallb_forall in C.
  specialize (C d (in_upto _ _ Hd)).
  unfold check_day in C. destruct (ord2ymd (ymd2ord y m d)) as [[y' m'] d'].
  apply andb_true_iff in C as [C Cd]. apply andb_true_iff in C as [Cy Cm].
  apply Z.eqb_eq in Cy, Cm, Cd. congruence.
Qed.

Lemma is_leap_period (y k : Z) : is_leap (y + 400 * k) = is_leap y.
Proof.
  unfold is_leap.
  replace ((y + 400 * k) mod 4) with (y mod 4)
    by (replace (y + 400 * k) with (y + (100 * k) * 4) by lia;
        symmetry; apply Z.mod_add; lia).
  replace ((y + 400 * k) mod 100) with (y mod 100)
    by (replace (y + 400 * k) with (y + (4 * k) * 100) by lia;
        symmetry; apply Z.mod_add; lia).
  replace ((y + 400 * k) mod 400) with (y mod 400)
    by (replace (y + 400 * k) with (y + k * 400) by lia;
        symmetry; apply Z.mod_add; lia).
  reflexivity.
Qed.

Lemma days_in_month_period (y k m : Z) :
  days_in_month (y + 400 * k) m = days_in_month y m.
Proof. unfold days_in_month. rewrite is_leap_period. reflexivity. Qed.

Lemma ymd2ord_period (y k m d : Z) :
  ymd2ord (y + 400 * k) m d = ymd2ord y m d + DI400Y * k.
Proof.
  unfold ymd2ord, days_before_month, days_before_year, DI400Y.
  rewrite is_leap_period. cbv zeta.
  replace ((y + 400 * k - 1) / 4) with ((y - 1) / 4 + 100 * k)
    by (replace (y + 400 * k - 1) with (y - 1 + (100 * k) * 4) by lia;
        rewrite Z.div_add by lia; reflexivity).
  replace ((y + 400 * k - 1) / 100) with ((y - 1) / 100 + 4 * k)
    by (replace (y + 400 * k - 1) with (y - 1 + (4 * k) * 100) by lia;
        rewrite Z.div_add by lia; reflexivity).
  replace ((y + 400 * k - 1) / 400) with ((y - 1) / 400 + k)
    by (replace (y + 400 * k - 1) with (y - 1 + k * 400) by lia;
        rewrite Z.div_add by lia; reflexivity).
  lia.
Qed.

Lemma ord2ymd_period (n k : Z) :
  ord2ymd (n + DI400Y * k) =
    let '(y, m, d) := ord2ymd n in (y + 400 * k, m, d).
Proof.
  unfold ord2ymd. cbv zeta.
  replace (n + DI400Y * k - 1) with (n - 1 + k * DI400Y) by lia.
  rewrite Z.div_add, Z.mod_add by (unfold DI400Y; lia).
  set (r := (n - 1) mod DI400Y).
  set (q := (n - 1) / DI400Y).
  destruct ((r mod DI100Y mod DI4Y / 365 =? 4) || (r / DI100Y =? 4)).
  - f_equal. f_equal. lia.
  - destruct (_ <? _); f_equal; f_equal; lia.
Qed.

(** The ordinal of a date leads back to the date, over the whole range of
    [datetime]. *)
Lemma ord2ymd_ymd2ord (y m d : Z) :
  1 <= y -> 1 <= m <= 12 -> 1 <= d <= days_in_month y m ->
  ord2ymd (ymd2ord y m d) = (y, m, d).
Proof.
  intros Hy Hm Hd.
  set (k := (y - 1) / 400). set (y0 := (y - 1) mod 400 + 1).
  assert (Ey : y = y0 + 400 * k)
    by (subst k y0; pose proof (Z.div_mod (y - 1) 400); lia).
  assert (Hy0 : 1 <= y0 <= 400)
    by (subst y0; pose proof (Z.mod_pos_bound (y - 1) 400); lia).
  rewrite Ey in *. rewrite ymd2ord_period, ord2ymd_period.
  rewrite days_in_month_period in Hd.
  rewrite ord2ymd_ymd2ord_first_period by assumption. reflexivity.
Qed.

End CalendarFacts.


(** ** Time coordinates *)

Module CoordFacts.
Import TextFacts CalendarFacts.

Lemma round_half_even_int (q : Q) (n : Z) : (q == inject_Z n)%Q -> round_half_even q = n.
Proof.
  intros E. unfold round_half_even.
  assert (F : Qfloor q = n) by (rewrite E; apply Qfloor_Z).
  rewrite F.
  assert (C : ((q - inject_Z n) ?= (1 # 2))%Q = Lt).
  { rewrite E. apply Qlt_alt.
    assert (Z0 : (inject_Z n - inject_Z n == 0)%Q) by ring.
    rewrite Z0. reflexivity. }
  rewrite C. reflexivity.
Qed.

Lemma total_seconds_micro (td : Z) :
  exists q, total_seconds td = Fl q /\ (q * 1000000 == inject_Z td)%Q.
Proof.
  eexists. split; [reflexivity|].
  rewrite Qred_correct. unfold Qeq, Qmult, inject_Z. cbn [Qnum Qden]. lia.
Qed.

(** Seconds since 1970-01-01T00:00:00 and back. *)
Lemma fromtimestamp_total_seconds (x : datetime) (td : Z) :
  valid x = true -> sub x epoch = Some td ->
  fromtimestamp_utc (total_seconds td) =
    Some (mk_datetime (year x) (month x) (day x) (hour x) (minute x) (second x)
                      (microsecond x) UTC).
Proof.
  destruct x as [y m d hh mm ss us t]. unfold valid, sub, toordinal, seconds_of_day.
  cbn [year month day hour minute second microsecond tz].
  intros V S. destruct t; [|discriminate]. cbn [epoch tz] in S.
  pose proof (valid_fields_bounds _ _ _ _ _ _ _ V) as (Hy & Hm & Hd & Hh & Hmi & Hs & Hu).
  injection S as S.
  destruct (total_seconds_micro td) as (q & -> & Eq).
  unfold fromtimestamp_utc. rewrite (round_half_even_int _ td Eq).
  change (toordinal epoch) with 719163.
  change (ymd2ord 1970 1 1) with 719163 in S.
  change (10 ^ 6) with 1000000 in *.
  set (sod := ss + mm * 60 + hh * 3600) in *.
  set (D := ymd2ord y m d - 719163) in *.
  assert (Hsod : 0 <= sod < 86400) by (subst sod; lia).
  assert (E1 : td / 1000000 = D * 86400 + sod)
    by (symmetry; apply (Z.div_unique _ _ _ us); lia).
  assert (E2 : td mod 1000000 = us)
    by (symmetry; apply (Z.mod_unique _ _ (D * 86400 + sod)); lia).
  rewrite E1, E2.
  assert (E3 : (D * 86400 + sod) / 86400 = D)
    by (symmetry; apply (Z.div_unique _ _ _ sod); lia).
  assert (E4 : (D * 86400 + sod) mod 86400 = sod)
    by (symmetry; apply (Z.mod_unique _ _ D); lia).
  rewrite E3, E4.
  replace (D + 719163) with (ymd2ord y m d) by (subst D; lia).
  rewrite ord2ymd_ymd2ord by lia.
  assert (E5 : sod / 3600 = hh)
    by (symmetry; apply (Z.div_unique _ _ _ (ss + mm * 60)); subst sod; lia).
  assert (E6 : sod mod 3600 = ss + mm * 60)
    by (symmetry; apply (Z.mod_unique _ _ hh); subst sod; lia).
  assert (E7 : (ss + mm * 60) / 60 = mm)
    by (symmetry; apply (Z.div_unique _ _ _ ss); lia).
  assert (E8 : sod mod 60 = ss)
    by (symmetry; apply (Z.mod_unique _ _ (mm + hh * 60)); subst sod; lia).
  rewrite E5, E6, E7, E8. unfold make. rewrite V. reflexivity.
Qed.

(** C9: every timestamp of the dataset (a naive datetime) is turned into the
    seconds elapsed since 1970-01-01T00:00:00, whose own coordinate is 0, and
    the conversion back is the one to a UTC timestamp; the two are on one time
    scale, as going forth and back gives the same date and time of day, now
    labelled UTC. *)
Theorem time_coordinates_share_the_epoch (x : datetime) (s : St) :
  valid x = true -> tz x = Naive ->
  exists td,
    sub x epoch = Some td /\
    time_data_to_dec [x] s = Ret [total_seconds td] s /\
    fromtimestamp_utc (total_seconds td) =
      Some (mk_datetime (year x) (month x) (day x) (hour x) (minute x) (second x)
                        (microsecond x) UTC) /\
    time_data_to_dec [epoch] s = Ret [Fl 0] s /\
    fromtimestamp_utc (Fl 0) = Some (mk_datetime 1970 1 1 0 0 0 0 UTC).
Proof.
  intros V N.
  assert (exists td, sub x epoch = Some td) as [td E].
  { unfold sub. rewrite N. cbn [epoch tz]. eexists. reflexivity. }
  exists td. split; [exact E|]. split; [|split; [|split]].
  - unfold time_data_to_dec. cbn [comprehension].
    unfold mbind, M_bind, bind, of_option, ret. rewrite E. reflexivity.
  - apply fromtimestamp_total_seconds; assumption.
  - reflexivity.
  - reflexivity.
Qed.

Lemma time_coordinates_share_the_epoch_witness :
  exists td,
    sub (a_clock 0) epoch = Some td /\
    fromtimestamp_utc (total_seconds td) = Some (mk_datetime 2017 3 9 14 0 7 250 UTC).
Proof.
  destruct (time_coordinates_share_the_epoch (a_clock 0)
              (mk_St (empty_timer 100) (fresh [])) eq_refl eq_refl)
    as (td & E & _ & F & _).
  exists td. split; [exact E|exact F].
Defined.

End CoordFacts.

(** ** Sampling and selection *)

Module NpFacts.

Lemma linspace_length (start stop : float) (num : nat) :
  length (linspace start stop num) = num.
Proof.
  destruct num as [|[|div]]; [reflexivity..|].
  unfold linspace. rewrite length_app, length_map, length_seq. cbn. lia.
Qed.

(** The points of [linspace] are evenly spaced from [start] to [stop]: the
    point of index [i] is [start + i * (stop - start) / (num - 1)]. *)
Lemma linspace_lookup (a b : Q) (div i : nat) :
  (i <= S div)%nat ->
  exists q, linspace (Fl a) (Fl b) (S (S div)) !! i = Some (Fl q) /\
            (q == a + inject_Z (Z.of_nat i) * ((b - a) / inject_Z (Z.of_nat (S div))))%Q.
Proof.
  intros Hi. unfold linspace.
  assert (Hd : ~ (inject_Z (Z.of_nat (S div)) == 0)%Q).
  { unfold Qeq, inject_Z. cbn [Qnum Qden]. lia. }
  destruct (decide (i = S div)) as [->|Hne].
  - exists b. split.
    + rewrite lookup_app_r by (rewrite length_map, length_seq; lia).
      rewrite length_map, length_seq, Nat.sub_diag. reflexivity.
    + field. exact Hd.
  - assert (Hlt : (i < S div)%nat) by lia.
    unfold fdiv, fsub, of_int.
    destruct (Qeq_bool (inject_Z (Z.of_nat (S div))) 0) eqn:Z0;
      [apply Qeq_bool_iff in Z0; contradiction|].
    eexists. split.
    + rewrite lookup_app_l by (rewrite length_map, length_seq; lia).
      rewrite list_lookup_fmap, lookup_seq_lt by lia. cbn. reflexivity.
    + rewrite !Qred_correct. ring.
Qed.

Lemma Qlt_bool_iff (a b : Q) : Qlt_bool a b = true <-> (a < b)%Q.
Proof.
  unfold Qlt_bool. rewrite negb_true_iff. split.
  - intros H. apply Qnot_le_lt. intros L. apply Qle_bool_iff in L. congruence.
  - intros H. destruct (Qle_bool b a) eqn:E; [|reflexivity].
    apply Qle_bool_iff in E. exfalso. exact (Qlt_not_le _ _ H E).
Qed.

(** [argmin_from] keeps the invariant of a running minimum. *)
Lemma argmin_from_spec (l : list float) (bi : nat) (b : Q) (i : nat) :
  let k := argmin_from bi b i l in
  (k = bi /\ (forall j q, l !! j = Some (Fl q) -> (b <= q)%Q)) \/
  (exists q, (i <= k)%nat /\ l !! (k - i)%nat = Some (Fl q) /\ (q < b)%Q /\
             (forall j q', l !! j = Some (Fl q') -> (q <= q')%Q) /\
             (forall j q', (j < k - i)%nat -> l !! j = Some (Fl q') -> (q < q')%Q)).
Proof.
  revert bi b i. induction l as [|x l IH]; intros bi b i; cbn [argmin_from].
  - left. split; [reflexivity|]. intros j q H. rewrite lookup_nil in H. discriminate.
  - destruct x as [q0|].
    + destruct (Qlt_bool q0 b) eqn:C.
      * apply Qlt_bool_iff in C. right.
        destruct (IH i q0 (S i)) as [[Ek Hall]|(q & Hle & Hk & Hq & Hall & Hfirst)].
        -- exists q0. rewrite Ek, Nat.sub_diag. split; [lia|].
           split; [reflexivity|]. split; [exact C|]. split.
           ++ intros [|j] q' H; cbn in H; [injection H as <-; apply Qle_refl|].
              eapply Hall; eassumption.
           ++ intros j q' Hj. lia.
        -- exists q. split; [lia|].
           replace (argmin_from i q0 (S i) l - i)%nat
             with (S (argmin_from i q0 (S i) l - S i)) by lia.
           split; [exact Hk|]. split; [eapply Qlt_trans; eassumption|]. split.
           ++ intros [|j] q' H; cbn in H;
                [injection H as <-; apply Qlt_le_weak; exact Hq|].
              eapply Hall; eassumption.
           ++ intros [|j] q' Hj H; cbn in H; [injection H as <-; exact Hq|].
              eapply (Hfirst j); [lia|exact H].
      * assert (Hb : (b <= q0)%Q).
        { apply Qnot_lt_le. intros L. apply Qlt_bool_iff in L. congruence. }
        destruct (IH bi b (S i)) as [[Ek Hall]|(q & Hle & Hk & Hq & Hall & Hfirst)].
        -- left. split; [exact Ek|].
           intros [|j] q' H; cbn in H; [injection H as <-; exact Hb|].
           eapply Hall; eassumption.
        -- right. exists q. split; [lia|].
           replace (argmin_from bi b (S i) l - i)%nat
             with (S (argmin_from bi b (S i) l - S i)) by lia.
           split; [exact Hk|]. split; [exact Hq|]. split.
           ++ intros [|j] q' H; cbn in H.
              ** injection H as <-. apply Qlt_le_weak. eapply Qlt_le_trans; eassumption.
              ** eapply Hall; eassumption.
           ++ intros [|j] q' Hj H; cbn in H.
              ** injection H as <-. eapply Qlt_le_trans; eassumption.
              ** eapply (Hfirst j); [lia|exact H].
    + destruct (IH bi b (S i)) as [[Ek Hall]|(q & Hle & Hk & Hq & Hall & Hfirst)].
      * left. split; [exact Ek|].
        intros [|j] q' H; cbn in H; [discriminate|]. eapply Hall; eassumption.
      * right. exists q. split; [lia|].
        replace (argmin_from bi b (S i) l - i)%nat
          with (S (argmin_from bi b (S i) l - S i)) by lia.
        split; [exact Hk|]. split; [exact Hq|]. split.
        -- intros [|j] q' H; cbn in H; [discriminate|]. eapply Hall; eassumption.
        -- intros [|j] q' Hj H; cbn in H; [discriminate|].
           eapply (Hfirst j); [lia|exact H].
Qed.

Lemma nanargmin_at_spec (l : list float) (i : nat) :
  match nanargmin_at i l with
  | None => Forall (fun x => x = NaN) l
  | Some k =>
      (i <= k)%nat /\
      exists q, l !! (k - i)%nat = Some (Fl q) /\
                (forall j q', l !! j = Some (Fl q') -> (q <= q')%Q) /\
                (forall j q', (j < k - i)%nat -> l !! j = Some (Fl q') -> (q < q')%Q)
  end.
Proof.
  revert i. induction l as [|x l IH]; intros i; cbn [nanargmin_at]; [constructor|].
  destruct x as [q0|].
  - destruct (argmin_from_spec l i q0 (S i)) as [[Ek Hall]|(q & Hle & Hk & Hq & Hall & Hfirst)].
    + rewrite Ek, Nat.sub_diag. split; [lia|]. exists q0. split; [reflexivity|]. split.
      * intros [|j] q' H; cbn in H; [injection H as <-; apply Qle_refl|].
        eapply Hall; eassumption.
      * intros j q' Hj. lia.
    + split; [lia|]. exists q.
      replace (argmin_from i q0 (S i) l - i)%nat
        with (S (argmin_from i q0 (S i) l - S i)) by lia.
      split; [exact Hk|]. split.
      * intros [|j] q' H; cbn in H; [injection H as <-; apply Qlt_le_weak; exact Hq|].
        eapply Hall; eassumption.
      * intros [|j] q' Hj H; cbn in H; [injection H as <-; exact Hq|].
        eapply (Hfirst j); [lia|exact H].
  - specialize (IH (S i)). destruct (nanargmin_at (S i) l) as [k|].
    + destruct IH as (Hle & q & Hk & Hall & Hfirst). split; [lia|]. exists q.
      replace (k - i)%nat with (S (k - S i)) by lia.
      split; [exact Hk|]. split.
      * intros [|j] q' H; cbn in H; [discriminate|]. eapply Hall; eassumption.
      * intros [|j] q' Hj H; cbn in H; [discriminate|].
        eapply (Hfirst j); [lia|exact H].
    + constructor; [reflexivity|exact IH].
Qed.

(** [nanargmin] gives the first index of the least element that is not NaN,
    and fails only when every element is NaN. *)
Lemma nanargmin_spec (l : list float) :
  match nanargmin l with
  | None => Forall (fun x => x = NaN) l
  | Some k =>
      exists q, l !! k = Some (Fl q) /\
                (forall j q', l !! j = Some (Fl q') -> (q <= q')%Q) /\
                (forall j q', (j < k)%nat -> l !! j = Some (Fl q') -> (q < q')%Q)
  end.
Proof.
  unfold nanargmin. pose proof (nanargmin_at_spec l 0) as H.
  destruct (nanargmin_at 0 l) as [k|]; [|exact H].
  destruct H as (_ & q & Hk & Hall & Hfirst).
  rewrite Nat.sub_0_r in *. exists q. repeat split; assumption.
Qed.

Lemma lookup_map_fabs (l : list float) (j : nat) (a : Q) :
  map fabs l !! j = Some (Fl a) <-> exists y, l !! j = Some (Fl y) /\ a = Qabs y.
Proof.
  change (map fabs l) with (fabs <$> l). rewrite list_lookup_fmap.
  destruct (l !! j) as [[y|]|]; cbn; split.
  - intros [= <-]. exists y. split; reflexivity.
  - intros (y' & [= <-] & ->). reflexivity.
  - discriminate.
  - intros (? & [=] & _).
  - discriminate.
  - intros (? & [=] & _).
Qed.

(** A comprehension over a conversion that succeeds on every element. *)
Lemma comprehension_of_option {S A B} (e : exn) (f : A -> option B) (l : list A) (s : S) :
  Forall (fun x => is_Some (f x)) l ->
  exists l', comprehension (fun x => of_option e (f x)) l s = Ret l' s /\
             length l' = length l /\
             forall i x, l !! i = Some x -> l' !! i = f x.
Proof.
  induction 1 as [|x l [b Hb] _ (l' & E & Hlen & Hl')].
  - exists []. repeat split. intros i x H. rewrite lookup_nil in H. discriminate.
  - exists (b :: l'). cbn [comprehension]. unfold mbind, M_bind, bind.
    rewrite Hb. unfold of_option at 1, ret at 1. rewrite E. unfold ret.
    split; [reflexivity|]. split; [cbn; lia|].
    intros [|i] x' H; cbn in H |- *; [injection H as <-; symmetry; exact Hb|].
    apply Hl'. exact H.
Qed.

End NpFacts.

(** ** The estimator *)

Module EstimatorClaims.
Import NpFacts.

Section Numerics.

Variable polyfit : list float -> list float -> Z -> exn + list float.
Variable roots : list float -> root_array.

Lemma fit_end_spec (poly : Z) (s : St) (tdd z : list float) :
  time_data_to_dec (time_data (self s)) s = Ret tdd s ->
  length (time_data (self s)) = length (upload_data (self s)) ->
  polyfit tdd (map to_float (upload_data (self s))) poly = inr z ->
  fit_end polyfit roots poly s =
    match roots z with
    | RealRoots (r :: _) =>
        match fromtimestamp_utc r with
        | Some e => Ret (tdd, z, roots z, r, e) s
        | None => Raise ValueError s
        end
    | ComplexRoots (_ :: _) => Raise TypeError s
    | _ => Raise IndexError s
    end.
Proof.
  intros Ht Hl Hz. unfold fit_end. unfold mbind, M_bind, bind, get_self.
  rewrite Ht, Hl, Nat.eqb_refl, Hz. unfold ret at 1 2.
  destruct (roots z) as [[|r l]|[|[re im] l]]; cbn [first of_option];
    unfold raise, ret; try reflexivity.
  destruct (fromtimestamp_utc r); reflexivity.
Qed.

End Numerics.

(** C2: the end time is the first element of the array the root finder
    returns, for every fit and every root finder.  The other roots play no
    part: they are neither sorted nor compared with the samples, and a first
    root that is complex ends the estimator with [TypeError] whatever follows
    it.  An empty array ends it with [IndexError]. *)
Theorem endtime_is_first_root_returned
    (polyfit : list float -> list float -> Z -> exn + list float)
    (roots : list float -> root_array)
    (poly : Z) (s : St) (tdd z : list float) :
  time_data_to_dec (time_data (self s)) s = Ret tdd s ->
  length (time_data (self s)) = length (upload_data (self s)) ->
  polyfit tdd (map to_float (upload_data (self s))) poly = inr z ->
  fit_end polyfit roots poly s =
    match roots z with
    | RealRoots (r :: _) =>
        match fromtimestamp_utc r with
        | Some e => Ret (tdd, z, roots z, r, e) s
        | None => Raise ValueError s
        end
    | ComplexRoots (_ :: _) => Raise TypeError s
    | _ => Raise IndexError s
    end.
Proof. apply fit_end_spec. Qed.

Lemma endtime_is_first_root_returned_witness :
  exists tdd,
    time_data_to_dec (time_data (self two_samples)) two_samples = Ret tdd two_samples /\
    fit_end (fun _ _ _ => inr parabola) (fun _ => RealRoots [Fl 30; Fl 10]) 2 two_samples =
      Ret (tdd, parabola, RealRoots [Fl 30; Fl 10], Fl 30,
           mk_datetime 1970 1 1 0 0 30 0 UTC) two_samples.
Proof.
  eexists. split; [vm_compute; reflexivity|].
  rewrite (endtime_is_first_root_returned (fun _ _ _ => inr parabola)
             (fun _ => RealRoots [Fl 30; Fl 10]) 2 two_samples _ parabola
             eq_refl eq_refl eq_refl).
  reflexivity.
Defined.

(** C1 as stated fails: a dataset of two samples has the [degree + 1] samples
    of degree 0 and of degree 1.  For degree 0 the fit is a constant, a
    constant has no root, and the estimator ends with [IndexError] at
    [roots[0]] before any point is sampled.  For degree 1 the same happens, in
    exact arithmetic, when the two counts are equal: the fitted line is level. *)
Lemma estimate_without_root_raises :
  (0 + 1 <= Z.of_nat (length (time_data (self two_samples)))) /\
  outcome (estimate Exact.polyfit Exact.roots 0 two_samples) = inl IndexError /\
  outcome (plot_it Exact.polyfit Exact.roots 0 two_samples) = inl IndexError /\
  (1 + 1 <= Z.of_nat (length (time_data (self stalled)))) /\
  outcome (estimate Exact.polyfit Exact.roots 1 stalled) = inl IndexError.
Proof. repeat split; vm_compute; congruence. Qed.

(** C1, amended: when the fit succeeds, the first root returned is a real
    number, each of the 100 sampled points has a timestamp and not every
    evaluated value is NaN, the estimator evaluates the fitted polynomial on
    exactly 100 evenly spaced points from the first sample's coordinate to the
    end time, selects the first index at which the absolute value is least
    among the values that are not NaN, and reports the hour and minute of that
    point's timestamp. *)
Theorem estimate_samples_the_fitted_curve
    (polyfit : list float -> list float -> Z -> exn + list float)
    (roots : list float -> root_array)
    (poly : Z) (s : St) (q0 r : Q) (tdd z : list float) (rs : list float) :
  time_data_to_dec (time_data (self s)) s = Ret (Fl q0 :: tdd) s ->
  length (time_data (self s)) = length (upload_data (self s)) ->
  polyfit (Fl q0 :: tdd) (map to_float (upload_data (self s))) poly = inr z ->
  roots z = RealRoots (Fl r :: rs) ->
  Forall (fun x => is_Some (fromtimestamp_utc x)) (linspace (Fl q0) (Fl r) 100) ->
  Exists (fun x => polyval z x <> NaN) (linspace (Fl q0) (Fl r) 100) ->
  exists L,
    estimate polyfit roots poly s = Ret L s /\
    Estimator.z L = z /\ endtime_dec L = Fl r /\
    xp L = linspace (Fl q0) (Fl r) 100 /\ length (xp L) = 100%nat /\
    (forall i, (i <= 99)%nat ->
       exists q, xp L !! i = Some (Fl q) /\
                 (q == q0 + inject_Z (Z.of_nat i) * ((r - q0) / 99))%Q) /\
    newfiles L = map (polyval z) (xp L) /\
    (exists y, newfiles L !! theargmin L = Some (Fl y) /\
       (forall j y', newfiles L !! j = Some (Fl y') -> (Qabs y <= Qabs y')%Q) /\
       (forall j y', (j < theargmin L)%nat -> newfiles L !! j = Some (Fl y') ->
                     (Qabs y < Qabs y')%Q)) /\
    (exists x d, xp L !! theargmin L = Some x /\ fromtimestamp_utc x = Some d /\
                 completion_time L = strftime_HM d).
Proof.
  intros Ht Hl Hz Hr Hdates Hnum.
  set (pts := linspace (Fl q0) (Fl r) 100) in *.
  assert (Hlen : length pts = 100%nat) by apply linspace_length.
  assert (Hend : exists e, fromtimestamp_utc (Fl r) = Some e).
  { rewrite Forall_forall in Hdates. apply Hdates.
    apply list_elem_of_lookup. exists 99%nat.
    destruct (linspace_lookup q0 r 98 99 ltac:(lia)) as (q & Hq & _).
    subst pts. rewrite Hq. f_equal.
    unfold linspace in Hq.
    rewrite lookup_app_r in Hq by (rewrite length_map, length_seq; lia).
    rewrite length_map, length_seq in Hq. cbn in Hq. congruence. }
  destruct Hend as [e He].
  destruct (comprehension_of_option ValueError fromtimestamp_utc pts s Hdates)
    as (dates & Ed & Hdl & Hd).
  pose proof (nanargmin_spec (map fabs (map (polyval z) pts))) as Hmin.
  destruct (nanargmin (map fabs (map (polyval z) pts))) as [k|] eqn:Ek.
  2:{ exfalso. apply Exists_exists in Hnum as (x & Hx & Hnan).
      apply list_elem_of_lookup in Hx as [i Hi].
      rewrite Forall_forall in Hmin.
      specialize (Hmin (fabs (polyval z x))).
      assert (fabs (polyval z x) = NaN) as Hf.
      { apply Hmin. apply list_elem_of_lookup. exists i.
        change (map fabs (map (polyval z) pts)) with (fabs <$> (polyval z <$> pts)).
        rewrite !list_lookup_fmap, Hi. reflexivity. }
      destruct (polyval z x); [discriminate|]. apply Hnan. reflexivity. }
  destruct Hmin as (a & Hk & Hall & Hfirst).
  apply lookup_map_fabs in Hk as (y & Hy & ->).
  assert (Hklt : (k < 100)%nat).
  { apply lookup_lt_Some in Hy. rewrite length_map in Hy. lia. }
  destruct (lookup_lt_is_Some_2 pts k ltac:(lia)) as [x Hx].
  destruct (Forall_forall (fun x => is_Some (fromtimestamp_utc x)) pts) as [Hf _].
  destruct (Hf Hdates x) as [d Hdx].
  { apply list_elem_of_lookup. exists k. exact Hx. }
  exists (mk_locals (Fl q0 :: tdd) z (roots z) (Fl r) e pts dates
                    (map (polyval z) pts) k (strftime_HM d)).
  split.
  - unfold estimate. unfold mbind at 1, M_bind at 1, bind at 1.
    rewrite (fit_end_spec polyfit roots poly s _ z Ht Hl Hz), Hr, He.
    unfold sample_curve. unfold mbind, M_bind, bind. cbn [head of_option].
    unfold ret at 1. fold pts. rewrite Ed, Ek. cbn [of_option]. unfold ret at 1.
    rewrite (Hd k x Hx), Hdx. reflexivity.
  - cbn [Estimator.z endtime_dec xp newfiles theargmin completion_time].
    repeat split; try assumption; try reflexivity.
    + intros i Hi. subst pts.
      destruct (linspace_lookup q0 r 98 i ltac:(lia)) as (q & Hq & Eq).
      exists q. split; [exact Hq|exact Eq].
    + exists y. split; [exact Hy|]. split.
      * intros j y' Hj. apply (Hall j). apply lookup_map_fabs. eauto.
      * intros j y' Hlt Hj. apply (Hfirst j); [exact Hlt|].
        apply lookup_map_fabs. eauto.
    + exists x, d. repeat split; assumption.
Qed.

Lemma estimate_samples_the_fitted_curve_witness :
  exists L,
    estimate Exact.polyfit Exact.roots 1 two_samples = Ret L two_samples /\
    length (xp L) = 100%nat /\ theargmin L = 99%nat /\ completion_time L = "14:09"%string.
Proof.
  destruct (estimate_samples_the_fitted_curve Exact.polyfit Exact.roots 1 two_samples
              (Qred (1489068007000250 # 1000000)) (5956274188001 # 4000)
              [Fl (Qred (1489068067000250 # 1000000))]
              [Fl (-1 # 6); Fl (5956274188001 # 24000)] [])
    as (L & E & _ & _ & _ & Hlen & _).
  - vm_compute. reflexivity.
  - reflexivity.
  - vm_compute. reflexivity.
  - vm_compute. reflexivity.
  - apply (bool_decide_eq_true_1 _). vm_compute. reflexivity.
  - apply Exists_exists. eexists. split.
    + apply list_elem_of_lookup. exists 0%nat. vm_compute. reflexivity.
    + vm_compute. discriminate.
  - exists L. split; [exact E|]. split; [exact Hlen|].
    vm_compute in E. injection E as <-. split; reflexivity.
Defined.

End EstimatorClaims.

(** ** More on the record operation *)

Module RecordFacts.
Import StoreFacts.

(** X1: An explicit index other than 0, both files writable: the operation returns
    [True] without asking the console, the sample is appended to both
    sequences, and each file holds the whole updated sequence. *)
Theorem record_explicit_index (i : Z) (s : St) :
  i <> 0 ->
  uploads_txt ∉ unwritable (world s) ->
  timestamps_txt ∉ unwritable (world s) ->
  exists s',
    add_to_dataset (VInt i) s = Ret true s' /\
    upload_data (self s') = upload_data (self s) ++ [NInt (nfiles (self s) - i)] /\
    time_data (self s') = time_data (self s) ++ [clock (world s) (ticks (world s))] /\
    nfiles (self s') = nfiles (self s) /\
    fs (world s') !! uploads_txt = Some (upload_rows (self s')) /\
    fs (world s') !! timestamps_txt = Some (time_rows (self s')) /\
    stdin (world s') = stdin (world s) /\
    trace (world s') = trace (world s) ++ [Saved uploads_txt; Saved timestamps_txt].
Proof.
  intros Hi Hu Ht. eexists. split.
  - rewrite add_to_dataset_explicit
      by (cbn; apply negb_true_iff, Z.eqb_neq; assumption).
    apply (recorded_writable (VInt i) (NInt (nfiles (self s) - i)));
      [reflexivity|assumption..].
  - cbn [self world appended upload_data time_data nfiles log put tick fs stdin trace].
    repeat split.
    + rewrite lookup_insert_ne by discriminate. apply lookup_insert_eq.
    + apply lookup_insert_eq.
    + rewrite <- app_assoc. reflexivity.
Qed.

Lemma record_explicit_index_witness :
  exists s',
    add_to_dataset (VInt 10) (mk_St (empty_timer 100) stored) = Ret true s' /\
    upload_data (self s') = [NInt 90] /\
    fs (world s') !! uploads_txt = Some [Num (of_int 90)].
Proof.
  destruct (record_explicit_index 10 (mk_St (empty_timer 100) stored))
    as (s' & E & Hu & _ & _ & Hf & _).
  - discriminate.
  - apply not_elem_of_empty.
  - apply not_elem_of_empty.
  - exists s'. split; [exact E|]. split; [exact Hu|].
    rewrite Hf. unfold upload_rows. rewrite Hu. reflexivity.
Defined.

(** X3: At the prompt every integer answer is recorded, 0 included: the count
    appended is [nfiles - answer] and the answer is taken off the console. *)
Theorem prompt_answer_is_recorded (file_number : value) (a : Z) (rest : list value)
    (s : St) :
  truthy file_number = false ->
  stdin (world s) = VInt a :: rest ->
  uploads_txt ∉ unwritable (world s) ->
  timestamps_txt ∉ unwritable (world s) ->
  exists s',
    add_to_dataset file_number s = Ret true s' /\
    upload_data (self s') = upload_data (self s) ++ [NInt (nfiles (self s) - a)] /\
    time_data (self s') = time_data (self s) ++ [clock (world s) (ticks (world s))] /\
    stdin (world s') = rest /\
    trace (world s') =
      trace (world s) ++ [Prompted prompt; Saved uploads_txt; Saved timestamps_txt].
Proof.
  intros Hf Hin Hu Ht. eexists. split.
  - rewrite add_to_dataset_spec, Hf, Hin.
    apply (recorded_writable (VInt a) (NInt (nfiles (self s) - a)));
      [reflexivity|assumption..].
  - cbn [self world appended upload_data time_data nfiles log put tick fs stdin trace
         clock ticks].
    repeat split. rewrite <- !app_assoc. reflexivity.
Qed.

Lemma prompt_answer_is_recorded_witness :
  exists s',
    add_to_dataset VNone (mk_St (empty_timer 100) (fresh [VInt 0])) = Ret true s' /\
    upload_data (self s') = [NInt 100].
Proof.
  destruct (prompt_answer_is_recorded VNone 0 [] (mk_St (empty_timer 100) (fresh [VInt 0])))
    as (s' & E & Hu & _).
  - reflexivity.
  - reflexivity.
  - apply not_elem_of_empty.
  - apply not_elem_of_empty.
  - exists s'. split; [exact E|exact Hu].
Defined.

(** X4: A file number that is text, handed over by the caller or typed at the
    prompt (all that [input] returns under Python 3), ends the operation with
    [TypeError] at the subtraction: the time is already appended, the count is
    not, and no file is written. *)
Theorem text_file_number_raises (file_number : value) (t : string) (s s1 : St) :
  chosen file_number s = Some (VStr t, s1) ->
  exists s',
    add_to_dataset file_number s = Raise TypeError s' /\
    upload_data (self s') = upload_data (self s) /\
    time_data (self s') = time_data (self s) ++ [clock (world s) (ticks (world s))] /\
    fs (world s') = fs (world s) /\
    Forall (fun e => match e with Saved _ | SaveFailed _ => False | _ => True end)
           (drop (length (trace (world s))) (trace (world s'))).
Proof.
  intros Hc. rewrite add_to_dataset_spec. unfold chosen in Hc.
  destruct (truthy file_number).
  - injection Hc as -> <-. eexists. split; [reflexivity|].
    cbn [self world upload_data time_data tick fs trace]. repeat split.
    rewrite drop_all. constructor.
  - destruct (stdin (world s)) as [|a rest]; [discriminate|].
    injection Hc as -> <-. eexists. split; [reflexivity|].
    cbn [self world upload_data time_data tick fs trace clock ticks]. repeat split.
    rewrite drop_app_length. repeat constructor.
Qed.

Lemma text_file_number_raises_witness :
  exists s',
    add_to_dataset VNone (mk_St (empty_timer 100) (fresh [VStr "12"])) =
      Raise TypeError s' /\
    length (upload_data (self s')) = 0%nat /\ length (time_data (self s')) = 1%nat.
Proof.
  destruct (text_file_number_raises VNone "12" (mk_St (empty_timer 100) (fresh [VStr "12"]))
              _ eq_refl) as (s' & E & Hu & Ht & _).
  exists s'. split; [exact E|]. rewrite Hu, Ht. split; reflexivity.
Defined.

(** X5: Whatever the file number, the console and the file system, and whether the
    operation returns or raises, the samples held before stay where they are:
    each sequence is extended at its end by at most one element, the times
    never by fewer than the counts, and [nfiles] is unchanged. *)
Theorem add_to_dataset_extends (file_number : value) (s : St) :
  let s' := state_of (add_to_dataset file_number s) in
  exists counts times,
    upload_data (self s') = upload_data (self s) ++ counts /\
    time_data (self s') = time_data (self s) ++ times /\
    (length counts <= length times <= 1)%nat /\
    nfiles (self s') = nfiles (self s).
Proof.
  assert (R : forall cf s0,
    let s' := state_of (recorded cf s0) in
    exists counts times,
      upload_data (self s') = upload_data (self s0) ++ counts /\
      time_data (self s') = time_data (self s0) ++ times /\
      (length counts <= length times <= 1)%nat /\
      nfiles (self s') = nfiles (self s0)).
  { intros cf [o w]. unfold recorded, written. cbn [self world].
    destruct (int_sub (nfiles o) cf) as [e|r]; cbn [state_of self world].
    - exists [], [clock w (ticks w)]. cbn. rewrite app_nil_r. repeat split; lia.
    - exists [r], [clock w (ticks w)].
      cbn [tick unwritable]. case_bool_decide;
        [|cbn [state_of self world log put unwritable]; case_bool_decide];
        cbn [state_of self world appended upload_data time_data nfiles length];
        repeat split; lia. }
  intros s'. subst s'. rewrite add_to_dataset_spec.
  destruct (truthy file_number); [apply R|].
  destruct (stdin (world s)) as [|a rest].
  - exists [], []. cbn. rewrite !app_nil_r. repeat split; lia.
  - match goal with |- context [recorded a ?s1] => exact (R a s1) end.
Qed.

End RecordFacts.

(** ** More on loading *)

Module LoadFacts.
Import StoreFacts TextFacts RoundTrip.

(** X2: records with explicit non-zero indices, both files writable, append
    in order: after [k] of them the counts are those held before followed by
    [nfiles - index_i] for each index, the times have grown by [k], and
    [nfiles] and the writable paths are as they were. *)
Theorem records_append_in_order (indices : list Z) (s : St) :
  Forall (fun i => i <> 0) indices ->
  uploads_txt ∉ unwritable (world s) ->
  timestamps_txt ∉ unwritable (world s) ->
  exists s',
    record_each indices s = Ret tt s' /\
    upload_data (self s') =
      upload_data (self s) ++ map (fun i => NInt (nfiles (self s) - i)) indices /\
    length (time_data (self s')) = (length (time_data (self s)) + length indices)%nat /\
    nfiles (self s') = nfiles (self s) /\
    unwritable (world s') = unwritable (world s).
Proof. apply record_each_nonzero. Qed.

Lemma records_append_in_order_witness :
  exists s',
    record_each [10; 20; 28; 37; 47] (mk_St (empty_timer 100) (fresh [])) = Ret tt s' /\
    upload_data (self s') = [NInt 90; NInt 80; NInt 72; NInt 63; NInt 53] /\
    length (time_data (self s')) = 5%nat.
Proof.
  destruct (records_append_in_order [10; 20; 28; 37; 47]
              (mk_St (empty_timer 100) (fresh [])))
    as (s' & E & Hu & Hl & _).
  - repeat constructor; discriminate.
  - apply not_elem_of_empty.
  - apply not_elem_of_empty.
  - exists s'. split; [exact E|]. split; [exact Hu|exact Hl].
Defined.

(** X6: a dataset with no or at least two samples, every timestamp valid,
    naive and off the whole second, is written and read back (with [init=0])
    as it is: the same timestamps, and the counts as the floats they denote. *)
Theorem saved_dataset_loads_back (o : TimeIt) (w : World) :
  uploads_txt ∉ unwritable w -> timestamps_txt ∉ unwritable w ->
  length (upload_data o) <> 1%nat -> length (time_data o) <> 1%nat ->
  Forall printable (time_data o) ->
  let w' := saved_world o w in
  save (mk_St o w) = Ret tt (mk_St o w') /\
  read_upload_data 0 uploads_txt w' =
    Ret (map (fun n => NFloat (to_float n)) (upload_data o)) w' /\
  read_time_data 0 timestamps_txt w' = Ret (time_data o) w'.
Proof. apply save_then_load. Qed.

Lemma saved_dataset_loads_back_witness :
  let o := mk_TimeIt [NInt 90; NInt 80] [a_clock 0; a_clock 1] 100 in
  read_upload_data 0 uploads_txt (saved_world o (fresh [])) =
    Ret [NFloat (of_int 90); NFloat (of_int 80)] (saved_world o (fresh [])) /\
  read_time_data 0 timestamps_txt (saved_world o (fresh [])) =
    Ret [a_clock 0; a_clock 1] (saved_world o (fresh [])).
Proof.
  intros o.
  destruct (saved_dataset_loads_back o (fresh [])) as (_ & Hu & Ht).
  - apply not_elem_of_empty.
  - apply not_elem_of_empty.
  - cbn. lia.
  - cbn. lia.
  - repeat constructor; discriminate.
  - split; [exact Hu|exact Ht].
Defined.

Lemma read_one_row (path : string) (f : field) (w : World) :
  fs w !! path = Some [f] ->
  read_time_data 0 path w = Raise TypeError w /\
  read_upload_data 0 path w =
    Raise (match f with Num _ => TypeError | Text _ => ValueError end) w.
Proof.
  intros E.
  unfold read_upload_data, read_time_data, exists_, Np.loadtxt, Np.loadtxt_str.
  unfold mbind, M_bind, bind, ret. cbv beta. rewrite E.
  rewrite !bool_decide_eq_true_2 by (eexists; reflexivity).
  cbn [andb Z.eqb]. rewrite E. split; [reflexivity|].
  destruct f; reflexivity.
Qed.

(** X7: A file of a single row cannot be loaded: [loadtxt] gives an array without
    dimension and the reader raises [TypeError] when it iterates it.  (The
    counts reader raises [ValueError] before that when the row is no number.) *)
Theorem one_row_file_cannot_be_loaded (path : string) (f : field) (w : World) :
  fs w !! path = Some [f] ->
  read_time_data 0 path w = Raise TypeError w /\
  read_upload_data 0 path w =
    Raise (match f with Num _ => TypeError | Text _ => ValueError end) w.
Proof. apply read_one_row. Qed.

Lemma one_row_file_cannot_be_loaded_witness :
  read_time_data 0 timestamps_txt
    (saved_world (mk_TimeIt [NInt 90] [a_clock 0] 100) (fresh [])) =
  Raise TypeError (saved_world (mk_TimeIt [NInt 90] [a_clock 0] 100) (fresh [])).
Proof.
  exact (proj1 (one_row_file_cannot_be_loaded timestamps_txt (Text (str (a_clock 0)))
                  (saved_world (mk_TimeIt [NInt 90] [a_clock 0] 100) (fresh []))
                  (saved_timestamps _ _))).
Defined.

(** A row the format refuses stops the comprehension with [ValueError],
    wherever it stands. *)
Lemma comprehension_strptime_refused (rows : list field) (w : World) :
  Exists (fun f => match f with Text t => strptime t = None | Num _ => True end) rows ->
  comprehension strptime_field rows w = Raise ValueError w.
Proof.
  induction 1 as [f rows Hf|f rows _ IH]; cbn [comprehension];
    unfold mbind, M_bind, bind.
  - destruct f as [x|t]; cbn [strptime_field]; [reflexivity|].
    rewrite Hf. reflexivity.
  - destruct f as [x|t]; cbn [strptime_field]; [reflexivity|].
    destruct (strptime t); [|reflexivity].
    unfold ret at 1. rewrite IH. reflexivity.
Qed.

(** X8: A dataset that holds a timestamp on a whole second is written without
    complaint and cannot be loaded again: the reader raises [ValueError]. *)
Theorem whole_second_cannot_be_loaded (o : TimeIt) (w : World) :
  uploads_txt ∉ unwritable w -> timestamps_txt ∉ unwritable w ->
  length (time_data o) <> 1%nat ->
  Exists (fun x => tz x = Naive /\ microsecond x = 0) (time_data o) ->
  save (mk_St o w) = Ret tt (mk_St o (saved_world o w)) /\
  read_time_data 0 timestamps_txt (saved_world o w) = Raise ValueError (saved_world o w).
Proof.
  intros Hu Ht Hl Hx. split; [apply save_writable; assumption|].
  unfold read_time_data, exists_, Np.loadtxt_str.
  unfold mbind, M_bind, bind, ret. cbv beta. rewrite saved_timestamps.
  rewrite bool_decide_eq_true_2 by (eexists; reflexivity).
  cbn [andb Z.eqb]. rewrite saved_timestamps. unfold time_rows.
  rewrite squeeze_not_one by (rewrite length_map; assumption).
  cbn [Np.iter]. unfold ret. apply comprehension_strptime_refused.
  apply Exists_fmap. eapply Exists_impl; [exact Hx|].
  intros x [N U]. cbn. apply strptime_str_whole_second; assumption.
Qed.

Lemma whole_second_cannot_be_loaded_witness :
  let o := mk_TimeIt [NInt 90; NInt 80]
             [a_clock 0; mk_datetime 2017 3 9 14 1 7 0 Naive] 100 in
  read_time_data 0 timestamps_txt (saved_world o (fresh [])) =
    Raise ValueError (saved_world o (fresh [])).
Proof.
  intros o.
  destruct (whole_second_cannot_be_loaded o (fresh [])) as [_ H].
  - apply not_elem_of_empty.
  - apply not_elem_of_empty.
  - cbn. lia.
  - apply Exists_cons_tl, Exists_cons_hd. split; reflexivity.
  - exact H.
Defined.

(** X9: Constructing the object and recording once replaces whatever the two
    files held by a single row each, and those files cannot be loaded. *)
Theorem construct_then_record_overwrites (n i : Z) (w : World) :
  i <> 0 ->
  uploads_txt ∉ unwritable w -> timestamps_txt ∉ unwritable w ->
  exists o s',
    init_ n w = Ret o w /\
    add_to_dataset (VInt i) (mk_St o w) = Ret true s' /\
    fs (world s') !! uploads_txt = Some [Num (of_int (n - i))] /\
    fs (world s') !! timestamps_txt = Some [Text (str (clock w (ticks w)))] /\
    read_upload_data 0 uploads_txt (world s') = Raise TypeError (world s') /\
    read_time_data 0 timestamps_txt (world s') = Raise TypeError (world s').
Proof.
  intros Hi Hu Ht. exists (mk_TimeIt [] [] n). eexists. split; [|split].
  - unfold init_, read_upload_data, read_time_data, exists_.
    unfold mbind, M_bind, bind, ret. rewrite !andb_false_r. reflexivity.
  - rewrite add_to_dataset_explicit
      by (cbn; apply negb_true_iff, Z.eqb_neq; assumption).
    apply (recorded_writable (VInt i) (NInt (n - i))); [reflexivity|assumption..].
  - cbn [self world appended upload_data time_data nfiles app].
    match goal with |- ?A /\ ?B /\ _ =>
      assert (Eu : A) by (cbn [log put fs]; rewrite lookup_insert_ne by discriminate;
                          apply lookup_insert_eq);
      assert (Et : B) by (cbn [log put fs]; apply lookup_insert_eq) end.
    split; [exact Eu|]. split; [exact Et|].
    split.
    + exact (proj2 (read_one_row _ _ _ Eu)).
    + exact (proj1 (read_one_row _ _ _ Et)).
Qed.

Lemma construct_then_record_overwrites_witness :
  exists o s',
    init_ 100 stored = Ret o stored /\
    add_to_dataset (VInt 10) (mk_St o stored) = Ret true s' /\
    fs (world s') !! uploads_txt = Some [Num (of_int 90)].
Proof.
  destruct (construct_then_record_overwrites 100 10 stored)
    as (o & s' & E1 & E2 & F & _).
  - discriminate.
  - apply not_elem_of_empty.
  - apply not_elem_of_empty.
  - exists o, s'. split; [exact E1|]. split; [exact E2|exact F].
Defined.

End LoadFacts.

(** ** Recording, then loading *)

Module SessionFacts.
Import StoreFacts TextFacts RoundTrip.

(** The counts file read back, when it holds the rows of a dataset that has
    not exactly one count. *)
Lemma read_upload_rows (o : TimeIt) (w : World) :
  fs w !! uploads_txt = Some (upload_rows o) ->
  length (upload_data o) <> 1%nat ->
  read_upload_data 0 uploads_txt w =
    Ret (map (fun n => NFloat (to_float n)) (upload_data o)) w.
Proof.
  intros E Hl. unfold read_upload_data, exists_, Np.loadtxt.
  unfold mbind, M_bind, bind, ret. cbv beta. rewrite E.
  rewrite bool_decide_eq_true_2 by (eexists; reflexivity).
  cbn [andb Z.eqb]. rewrite E. unfold upload_rows. rewrite mapM_float_rows.
  rewrite squeeze_not_one by (rewrite length_map; assumption).
  cbn [Np.iter]. unfold ret. rewrite map_map. reflexivity.
Qed.

Lemma read_time_rows (o : TimeIt) (w : World) :
  fs w !! timestamps_txt = Some (time_rows o) ->
  length (time_data o) <> 1%nat ->
  Forall printable (time_data o) ->
  read_time_data 0 timestamps_txt w = Ret (time_data o) w.
Proof.
  intros E Hl P. unfold read_time_data, exists_, Np.loadtxt_str.
  unfold mbind, M_bind, bind, ret. cbv beta. rewrite E.
  rewrite bool_decide_eq_true_2 by (eexists; reflexivity).
  cbn [andb Z.eqb]. rewrite E. unfold time_rows.
  rewrite squeeze_not_one by (rewrite length_map; assumption).
  cbn [Np.iter]. unfold ret. apply comprehension_strptime. assumption.
Qed.

(** What a run of records with explicit non-zero indices leaves: the counts,
    the clock readings in the order taken, and both files holding the whole
    dataset. *)
Lemma record_each_files (indices : list Z) (s : St) :
  Forall (fun i => i <> 0) indices ->
  uploads_txt ∉ unwritable (world s) ->
  timestamps_txt ∉ unwritable (world s) ->
  fs (world s) !! uploads_txt = Some (upload_rows (self s)) ->
  fs (world s) !! timestamps_txt = Some (time_rows (self s)) ->
  exists s',
    record_each indices s = Ret tt s' /\
    upload_data (self s') =
      upload_data (self s) ++ map (fun i => NInt (nfiles (self s) - i)) indices /\
    time_data (self s') =
      time_data (self s) ++
      map (fun j => clock (world s) (ticks (world s) + j)%nat) (seq 0 (length indices)) /\
    fs (world s') !! uploads_txt = Some (upload_rows (self s')) /\
    fs (world s') !! timestamps_txt = Some (time_rows (self s')).
Proof.
  intros Hnz. revert s. induction Hnz as [|i rest Hi _ IH]; intros s Hu Ht Fu Ft.
  - exists s. cbn. rewrite !app_nil_r. repeat split; assumption.
  - cbn [record_each]. unfold mbind, M_bind, bind.
    rewrite add_to_dataset_explicit
      by (cbn; apply negb_true_iff, Z.eqb_neq; assumption).
    erewrite recorded_writable by (try eassumption; reflexivity).
    cbv zeta.
    match goal with |- context [record_each rest ?s1] =>
      destruct (IH s1) as (s' & E & Hud & Htd & Fu' & Ft') end.
    + assumption.
    + assumption.
    + cbn [self world log put fs]. rewrite lookup_insert_ne by discriminate.
      apply lookup_insert_eq.
    + cbn [self world log put fs]. apply lookup_insert_eq.
    + exists s'. split; [exact E|].
      cbn [self world appended upload_data time_data nfiles log put tick clock ticks]
        in Hud, Htd.
      rewrite Hud, Htd. rewrite <- !app_assoc. cbn [length seq map app].
      rewrite Nat.add_0_r, <- seq_shift, map_map.
      repeat split; try assumption.
      do 2 f_equal. apply map_ext. intros j. f_equal. lia.
Qed.

(** X10: A session read back: from the constructed object, two or more records
    with explicit non-zero indices, every clock reading off the whole second,
    leave files from which both readers (with [init=0]) return the dataset in
    memory, the counts as floats. *)
Theorem recorded_session_loads_back (n : Z) (indices : list Z) (w : World) :
  Forall (fun i => i <> 0) indices ->
  (2 <= length indices)%nat ->
  uploads_txt ∉ unwritable w -> timestamps_txt ∉ unwritable w ->
  (forall j, (j < length indices)%nat -> printable (clock w (ticks w + j)%nat)) ->
  exists s',
    record_each indices (mk_St (mk_TimeIt [] [] n) w) = Ret tt s' /\
    upload_data (self s') = map (fun i => NInt (n - i)) indices /\
    read_upload_data 0 uploads_txt (world s') =
      Ret (map (fun i => NFloat (of_int (n - i))) indices) (world s') /\
    read_time_data 0 timestamps_txt (world s') = Ret (time_data (self s')) (world s').
Proof.
  intros Hnz Hlen Hu Ht Hp.
  destruct indices as [|i rest]; [cbn in Hlen; lia|].
  apply Forall_cons in Hnz as [Hi Hrest].
  set (o1 := appended (mk_TimeIt [] [] n) (clock w (ticks w)) (NInt (n - i))).
  set (w1 := log (Saved timestamps_txt)
               (put timestamps_txt (time_rows o1)
                  (log (Saved uploads_txt) (put uploads_txt (upload_rows o1) (tick w))))).
  destruct (record_each_files rest (mk_St o1 w1) Hrest)
    as (s' & E & Hud & Htd & Fu & Ft); try assumption.
  - subst w1. cbn [self world log put fs]. rewrite lookup_insert_ne by discriminate.
    apply lookup_insert_eq.
  - subst w1. cbn [self world log put fs]. apply lookup_insert_eq.
  - cbn [self world o1 w1 appended upload_data time_data nfiles app log put tick clock
         ticks] in Hud, Htd.
    exists s'. split.
    + cbn [record_each]. unfold mbind, M_bind, bind.
      rewrite add_to_dataset_explicit
        by (cbn; apply negb_true_iff, Z.eqb_neq; assumption).
      erewrite recorded_writable by (try eassumption; reflexivity).
      exact E.
    + split; [exact Hud|]. split.
      * rewrite (read_upload_rows (self s') (world s') Fu)
          by (rewrite Hud; cbn [length] in *; rewrite length_map; cbn in Hlen; lia).
        rewrite Hud. cbn [map]. rewrite map_map. reflexivity.
      * apply (read_time_rows (self s') (world s') Ft).
        -- rewrite Htd. cbn [length]. rewrite length_map, length_seq. cbn in Hlen. lia.
        -- rewrite Htd. constructor.
           ++ specialize (Hp 0%nat). rewrite Nat.add_0_r in Hp. apply Hp. cbn. lia.
           ++ apply Forall_fmap, Forall_forall. intros j Hj.
              apply elem_of_seq in Hj.
              assert (P := Hp (S j) ltac:(cbn [length]; lia)).
              replace (ticks w + S j)%nat with (S (ticks w) + j)%nat in P by lia.
              exact P.
Qed.

Lemma recorded_session_loads_back_witness :
  exists s',
    record_each [10; 20; 28; 37; 47] (mk_St (mk_TimeIt [] [] 100) (fresh [])) = Ret tt s' /\
    read_time_data 0 timestamps_txt (world s') = Ret (time_data (self s')) (world s').
Proof.
  destruct (recorded_session_loads_back 100 [10; 20; 28; 37; 47] (fresh []))
    as (s' & E & _ & _ & Ht).
  - repeat constructor; discriminate.
  - cbn. lia.
  - apply not_elem_of_empty.
  - apply not_elem_of_empty.
  - intros j Hj. repeat split; [|discriminate].
    cbn in Hj. do 5 (destruct j as [|j]; [reflexivity|]). lia.
  - exists s'. split; [exact E|exact Ht].
Defined.

End SessionFacts.

(** ** More on the estimator *)

Module PlotFacts.
Import NpFacts TextFacts.

Lemma comprehension_state {S A B} (f : A -> option B) (e : exn) (l : list A) (s : S) :
  state_of (comprehension (fun x => of_option e (f x)) l s) = s.
Proof.
  induction l as [|a l IH]; [reflexivity|].
  cbn [comprehension]. unfold mbind, M_bind, bind.
  destruct (f a) as [b|]; [|reflexivity]. unfold of_option at 1, ret at 1.
  destruct (comprehension _ l s) as [bs s1|e1 s1]; exact IH.
Qed.

Lemma comprehension_Ret {S A B} (f : A -> option B) (e : exn) (l : list A) (l' : list B)
    (s s' : S) :
  comprehension (fun x => of_option e (f x)) l s = Ret l' s' ->
  Forall2 (fun x b => f x = Some b) l l' /\ s' = s.
Proof.
  revert l' s'. induction l as [|a l IH]; intros l' s'; cbn [comprehension].
  - intros [= <- <-]. split; [constructor|reflexivity].
  - unfold mbind, M_bind, bind. destruct (f a) as [b|] eqn:Fa; [|discriminate].
    unfold of_option at 1, ret at 1.
    destruct (comprehension _ l s) as [bs s1|e1 s1] eqn:C; [|discriminate].
    intros [= <- <-]. destruct (IH bs s1 eq_refl) as [H ->].
    split; [constructor; assumption|reflexivity].
Qed.

Lemma time_data_to_dec_state {S} (l : list datetime) (s : S) :
  state_of (time_data_to_dec l s) = s.
Proof.
  unfold time_data_to_dec. induction l as [|x l IH]; [reflexivity|].
  cbn [comprehension]. unfold mbind, M_bind, bind.
  destruct (sub x epoch); [|reflexivity]. unfold of_option at 1, ret at 1 2.
  destruct (comprehension _ l s) as [bs s1|e1 s1]; exact IH.
Qed.

Section Numerics.

Variable polyfit : list float -> list float -> Z -> exn + list float.
Variable roots : list float -> root_array.

Lemma fit_end_state (poly : Z) (s : St) :
  state_of (fit_end polyfit roots poly s) = s.
Proof.
  unfold fit_end. unfold mbind, M_bind, bind, get_self.
  pose proof (time_data_to_dec_state (time_data (self s)) s) as T.
  destruct (time_data_to_dec (time_data (self s)) s) as [tdd s1|e s1];
    cbn [state_of] in T; subst s1; [|reflexivity].
  destruct (length (time_data (self s)) =? length (upload_data (self s)))%nat;
    [|reflexivity].
  unfold ret at 1. destruct (polyfit tdd _ poly) as [e|z0]; [reflexivity|].
  unfold ret at 1. destruct (first (roots z0)) as [[r|re im]|]; cbn [of_option];
    unfold ret, raise; try reflexivity.
  destruct (fromtimestamp_utc r); reflexivity.
Qed.

Lemma sample_curve_state tdd z0 rts ed e (s : St) :
  state_of (sample_curve tdd z0 rts ed e s) = s.
Proof.
  unfold sample_curve. unfold mbind, M_bind, bind.
  destruct (head tdd) as [t0|]; [|reflexivity]. cbn [of_option]. unfold ret at 1.
  pose proof (comprehension_state fromtimestamp_utc ValueError (linspace t0 ed 100) s) as C.
  destruct (comprehension _ (linspace t0 ed 100) s) as [ds s1|e1 s1];
    cbn [state_of] in C; subst s1; [|reflexivity].
  destruct (nanargmin _) as [k|]; [|reflexivity]. cbn [of_option]. unfold ret at 1.
  destruct (ds !! k); reflexivity.
Qed.

Lemma estimate_state (poly : Z) (s : St) :
  state_of (estimate polyfit roots poly s) = s.
Proof.
  unfold estimate. unfold mbind at 1, M_bind at 1, bind at 1.
  pose proof (fit_end_state poly s) as F.
  destruct (fit_end polyfit roots poly s) as [[[[[tdd z0] rts] ed] e] s1|e s1];
    cbn [state_of] in F; subst s1; [|reflexivity].
  apply sample_curve_state.
Qed.

End Numerics.

Lemma save_name_not_uploads (poly : Z) :
  ("completion_time_k" ++ str_int poly ++ ".pdf")%string <> uploads_txt.
Proof. cbn. discriminate. Qed.

Lemma save_name_not_timestamps (poly : Z) :
  ("completion_time_k" ++ str_int poly ++ ".pdf")%string <> timestamps_txt.
Proof. cbn. discriminate. Qed.

(** X11: Plotting never touches the store: whatever the fit, the root finder and the
    outcome, the dataset in memory is the one it was, the two data files hold
    what they held, the clock is not read and the console is not asked. *)
Theorem plot_it_leaves_the_store
    (polyfit : list float -> list float -> Z -> exn + list float)
    (roots : list float -> root_array) (poly : Z) (s : St) :
  let s' := state_of (plot_it polyfit roots poly s) in
  self s' = self s /\
  fs (world s') !! uploads_txt = fs (world s) !! uploads_txt /\
  fs (world s') !! timestamps_txt = fs (world s) !! timestamps_txt /\
  ticks (world s') = ticks (world s) /\
  stdin (world s') = stdin (world s).
Proof.
  intros s'. subst s'. unfold plot_it. unfold mbind, M_bind, bind.
  pose proof (estimate_state polyfit roots poly s) as E.
  destruct (estimate polyfit roots poly s) as [L s1|e s1];
    cbn [state_of] in E; subst s1; [|repeat split].
  unfold io, savefig, Np.savetxt, print, ret.
  destruct s as [o w]. cbn [self world].
  case_bool_decide; cbn [state_of self world log fs ticks stdin]; [repeat split|].
  rewrite !lookup_insert_ne
    by (first [apply save_name_not_uploads|apply save_name_not_timestamps]).
  repeat split.
Qed.

(** X12: Without a sample there is no estimate: on a dataset with no timestamp the
    estimator raises, for every fit and root finder, and leaves no figure. *)
Theorem plot_it_needs_a_sample
    (polyfit : list float -> list float -> Z -> exn + list float)
    (roots : list float -> root_array) (poly : Z) (s : St) :
  time_data (self s) = [] ->
  exists e, plot_it polyfit roots poly s = Raise e s.
Proof.
  intros Ht. unfold plot_it, estimate, fit_end.
  unfold mbind, M_bind, bind, get_self. rewrite Ht.
  unfold time_data_to_dec. cbn [comprehension]. unfold ret at 1.
  destruct (length [] =? length (upload_data (self s)))%nat;
    [|eexists; reflexivity].
  unfold ret at 1. destruct (polyfit [] _ poly) as [e|z0]; [eexists; reflexivity|].
  unfold ret at 1. destruct (first (roots z0)) as [[r|re im]|]; cbn [of_option];
    unfold raise, ret; try (eexists; reflexivity).
  destruct (fromtimestamp_utc r); cbn [of_option]; unfold raise, ret;
    [|eexists; reflexivity].
  unfold sample_curve, mbind, M_bind, bind. cbn [head of_option]. unfold raise.
  eexists; reflexivity.
Qed.

Lemma plot_it_needs_a_sample_witness :
  exists e,
    plot_it Exact.polyfit Exact.roots 1 (mk_St (empty_timer 100) stored) =
      Raise e (mk_St (empty_timer 100) stored).
Proof.
  exact (plot_it_needs_a_sample Exact.polyfit Exact.roots 1
           (mk_St (empty_timer 100) stored) eq_refl).
Defined.

End PlotFacts.

(** ** The label and the coordinates *)

Module LabelFacts.
Import NpFacts TextFacts PlotFacts.

(** X13: The estimator reads the first root and nothing else of what the root
    finder returns: two root finders whose arrays start alike give the same
    outcome, the same figure and the same label. *)
Theorem plot_it_reads_the_first_root_only
    (polyfit : list float -> list float -> Z -> exn + list float)
    (roots1 roots2 : list float -> root_array) (poly : Z) (s : St) :
  (forall z, first (roots1 z) = first (roots2 z)) ->
  plot_it polyfit roots1 poly s = plot_it polyfit roots2 poly s.
Proof.
  intros H. unfold plot_it, estimate, fit_end.
  unfold mbind, M_bind, bind, get_self.
  destruct (time_data_to_dec (time_data (self s)) s) as [tdd s1|e s1]; [|reflexivity].
  destruct (length (time_data (self s)) =? length (upload_data (self s)))%nat;
    [|reflexivity].
  unfold ret at 1 5. destruct (polyfit tdd _ poly) as [e|z0]; [reflexivity|].
  unfold ret at 1 4. rewrite (H z0).
  destruct (first (roots2 z0)) as [[r|re im]|]; cbn [of_option]; unfold raise, ret;
    try reflexivity.
  destruct (fromtimestamp_utc r) as [d|]; cbn [of_option]; unfold raise, ret;
    [|reflexivity].
  unfold sample_curve, mbind, M_bind, bind.
  destruct (head tdd) as [t0|]; cbn [of_option]; unfold raise, ret; [|reflexivity].
  destruct (comprehension _ (linspace t0 r 100) s1) as [ds s2|e2 s2]; [|reflexivity].
  destruct (nanargmin _) as [k|]; cbn [of_option]; unfold raise, ret; [|reflexivity].
  destruct (ds !! k); reflexivity.
Qed.

Lemma plot_it_reads_the_first_root_only_witness :
  plot_it Exact.polyfit (fun _ => RealRoots [Fl 1489068547; Fl 10]) 1 two_samples =
  plot_it Exact.polyfit (fun _ => RealRoots [Fl 1489068547; Fl 1489068000; Fl 0]) 1
    two_samples.
Proof.
  apply plot_it_reads_the_first_root_only. intros z. reflexivity.
Defined.

Lemma fromtimestamp_utc_valid (x : float) (d : datetime) :
  fromtimestamp_utc x = Some d -> valid d = true /\ tz d = UTC.
Proof.
  unfold fromtimestamp_utc. destruct x as [q|]; [|discriminate].
  destruct (ord2ymd _) as [[y m] dd]. unfold make.
  destruct (valid_fields _ _ _ _ _ _ _) eqn:V; [|discriminate].
  intros [= <-]. split; [exact V|reflexivity].
Qed.

Lemma length_of_chars (l : list ascii) : String.length (string_of_list_ascii l) = length l.
Proof. induction l as [|c l IH]; cbn; [reflexivity|]. rewrite IH. reflexivity. Qed.

(** X14: The label of an estimate that succeeds is a time of day: five characters,
    two digits of an hour below 24, a colon and two digits of a minute below
    60, those of the timestamp selected among the sampled ones. *)
Theorem completion_label_is_a_time_of_day
    (polyfit : list float -> list float -> Z -> exn + list float)
    (roots : list float -> root_array) (poly : Z) (s s' : St) (L : locals) :
  estimate polyfit roots poly s = Ret L s' ->
  exists d,
    newdates L !! theargmin L = Some d /\
    0 <= hour d <= 23 /\ 0 <= minute d <= 59 /\
    completion_time L =
      string_of_list_ascii (fixed_digits 2 (hour d) ++ ":"%char :: fixed_digits 2 (minute d)) /\
    String.length (completion_time L) = 5%nat.
Proof.
  unfold estimate. unfold mbind at 1, M_bind at 1, bind at 1.
  destruct (fit_end polyfit roots poly s) as [[[[[tdd z0] rts] ed] e] s1|e s1];
    [|discriminate].
  unfold sample_curve, mbind, M_bind, bind.
  destruct (head tdd) as [t0|]; cbn [of_option]; unfold raise, ret; [|discriminate].
  destruct (comprehension _ (linspace t0 ed 100) s1) as [ds s2|e2 s2] eqn:C;
    [|discriminate].
  destruct (nanargmin _) as [k|]; cbn [of_option]; unfold raise, ret; [|discriminate].
  destruct (ds !! k) as [d|] eqn:K; cbn [of_option]; unfold raise, ret; [|discriminate].
  intros [= <- <-]. cbn [newdates theargmin completion_time].
  apply comprehension_Ret in C as [F _].
  destruct (Forall2_lookup_r _ _ _ _ _ F K) as (x & _ & Hx).
  apply fromtimestamp_utc_valid in Hx as [V _].
  destruct d as [y m dd hh mm ss us t]. unfold valid in V. cbn in V.
  apply valid_fields_bounds in V as (_ & _ & _ & Hh & Hm & _).
  exists (mk_datetime y m dd hh mm ss us t). cbn [hour minute].
  split; [exact K|]. split; [exact Hh|]. split; [exact Hm|]. split.
  - reflexivity.
  - unfold strftime_HM. rewrite length_of_chars, length_app.
    cbn [hour minute chr list_ascii_of_string app length].
    rewrite !fixed_digits_length. reflexivity.
Qed.

Lemma completion_label_is_a_time_of_day_witness :
  exists L d,
    estimate Exact.polyfit Exact.roots 1 two_samples = Ret L two_samples /\
    newdates L !! theargmin L = Some d /\ String.length (completion_time L) = 5%nat.
Proof.
  destruct (estimate Exact.polyfit Exact.roots 1 two_samples) as [L s1|e s1] eqn:E;
    [|vm_compute in E; discriminate].
  assert (s1 = two_samples) as ->.
  { pose proof (estimate_state Exact.polyfit Exact.roots 1 two_samples) as H.
    rewrite E in H. exact H. }
  destruct (completion_label_is_a_time_of_day Exact.polyfit Exact.roots 1 two_samples
              two_samples L E) as (d & K & _ & _ & _ & Hlen).
  exists L, d. split; [reflexivity|]. split; [exact K|exact Hlen].
Defined.



End LabelFacts.
